(** * HATEOAS bank API: a shallow embedding of [hateoas-bank-api.go]

  The Go program keeps a global [accounts] map and serves three handlers
  ([getAccount], [deposit], [withdraw]) behind one dispatching closure
  registered in [main].  Each handler is embedded as a function from the
  store and the request to the new store and the state of the
  [http.ResponseWriter] it wrote to.

  - [float64] values are IEEE 754 binary64 data ([spec_float] with
    [prec = 53], [emax = 1024]); [+=], [-=], [>] and [<=] are the
    binary64 operations.
  - Go strings are byte strings ([string]); Go maps are [gmap]s.
  - [json.NewDecoder(r.Body).Decode] is seen through its result (the
    decoded [Transaction], or an error); [json.NewEncoder(w).Encode v] is
    recorded as the value [v] handed to the encoder, and writes nothing
    when [v] holds a [float64] that is NaN or infinite, which
    [encoding/json] refuses.  The byte-level serialisation belongs to
    [encoding/json] and is outside the embedding. *)

From Stdlib Require Import ZArith Lia String Ascii List Bool.
From Stdlib Require Import Floats.SpecFloat.
From stdpp Require Import base strings gmap list.

Local Open Scope string_scope.

(** ** binary64 arithmetic *)

Module F64.

Definition prec : Z := 53.
Definition emax : Z := 1024.

Definition float64 : Type := spec_float.

Definition zero : float64 := S754_zero false.

(** [x + y] and [x - y] on [float64], round to nearest even. *)
Definition add (x y : float64) : float64 := SFadd prec emax x y.
Definition sub (x y : float64) : float64 := SFsub prec emax x y.

(** Go's [x < y], [x <= y], [x > y]: false as soon as one side is NaN. *)
Definition ltb (x y : float64) : bool := SFltb x y.
Definition leb (x y : float64) : bool := SFleb x y.
Definition gtb (x y : float64) : bool := SFltb y x.

(** A binary64 datum is a value of the format when its mantissa is
    canonical and its exponent in range. *)
Definition valid (x : float64) : bool := valid_binary prec emax x.

(** The least exponent of the format, -1074. *)
Definition emin : Z := SpecFloat.emin prec emax.

(** The [float64] nearest to [m * 2^e]; exact when [m] fits in 53 bits. *)
Definition of_dyadic (m e : Z) : float64 := binary_normalize prec emax m e false.

(** [math.IsNaN(x)]; and the values that are neither NaN nor infinite. *)
Definition is_nan (x : float64) : bool :=
  match x with S754_nan => true | _ => false end.

Definition is_finite (x : float64) : bool :=
  match x with S754_zero _ | S754_finite _ _ _ => true | _ => false end.

(** [math.MaxFloat64], (2^53 - 1) * 2^971. *)
Definition MaxFloat64 : float64 := S754_finite false 9007199254740991 971.

End F64.

Abbreviation float64 := F64.float64.

(** ** The functions of package [strings] the handlers call *)

Module strings.

Definition HasPrefix (s pre : string) : bool := String.prefix pre s.

(** [len(s) >= len(suffix) && s[len(s)-len(suffix):] == suffix] *)
Definition HasSuffix (s suffix : string) : bool :=
  (String.length suffix <=? String.length s)%nat &&
  String.eqb
    (String.substring (String.length s - String.length suffix)
                      (String.length suffix) s)
    suffix.

(** [s] without the leading [pre], or [s] itself when it does not start
    with [pre]. *)
Definition TrimPrefix (s pre : string) : string :=
  if HasPrefix s pre
  then String.substring (String.length pre)
                        (String.length s - String.length pre) s
  else s.

(** [strings.Split(s, sep)] for a one-byte separator: the substrings
    between the separators; always at least one element. *)
Fixpoint Split (s : string) (sep : ascii) : list string :=
  match s with
  | EmptyString => [EmptyString]
  | String c s' =>
      if Ascii.eqb c sep then EmptyString :: Split s' sep
      else match Split s' sep with
           | h :: t => String c h :: t
           | [] => [String c EmptyString]
           end
  end.

End strings.

(** ** The bank API *)

Module Bank.

Record Link := mkLink {
  Href : string;
  Method : string;
  Rel : string
}.

(** A nil [Links] map is the empty map. *)
Record Account := mkAccount {
  AccountID : string;
  AccountHolder : string;
  Balance : float64;
  Currency : string;
  Links : gmap string Link
}.

Record Transaction := mkTransaction {
  Amount : float64
}.

(** 1250.75 = 5003/4 and -150.25 = -601/4 are binary64 values. *)
Definition accounts : gmap string Account :=
  <["acc-123" := {| AccountID := "acc-123";
                    AccountHolder := "John Doe";
                    Balance := F64.of_dyadic 5003 (-2);
                    Currency := "USD";
                    Links := ∅ |}]>
  (<["acc-456" := {| AccountID := "acc-456";
                     AccountHolder := "Jane Smith";
                     Balance := F64.of_dyadic (-601) (-2);
                     Currency := "USD";
                     Links := ∅ |}]> ∅).

(** *** [net/http] as the handlers use it *)

Definition StatusBadRequest : Z := 400.
Definition StatusForbidden : Z := 403.
Definition StatusNotFound : Z := 404.
Definition StatusMethodNotAllowed : Z := 405.
Definition StatusOK : Z := 200.

(** What a handler reads of [*http.Request].  [Body] is the outcome of
    [json.NewDecoder(r.Body).Decode(&transaction)]: [None] when it returns
    an error. *)
Record Request := mkRequest {
  ReqMethod : string;
  Path : string;
  Host : string;
  Body : option Transaction
}.

(** The values handed to [json.NewEncoder(w).Encode]. *)
Inductive Payload :=
| JAccount (a : Account)
| JError (msg : string).

(** The [http.ResponseWriter]: the status given to [WriteHeader] (if any),
    the [Content-Type] header, and the payloads written, in order. *)
Record ResponseWriter := mkResponseWriter {
  Header : option Z;
  ContentType : option string;
  Written : list Payload
}.

Definition newResponse : ResponseWriter :=
  {| Header := None; ContentType := None; Written := [] |}.

(** The first [WriteHeader] wins. *)
Definition WriteHeader (code : Z) (w : ResponseWriter) : ResponseWriter :=
  match Header w with
  | None => {| Header := Some code; ContentType := ContentType w;
               Written := Written w |}
  | Some _ => w
  end.

Definition SetContentType (v : string) (w : ResponseWriter) : ResponseWriter :=
  {| Header := Header w; ContentType := Some v; Written := Written w |}.

(** [encoding/json] refuses a [float64] that is NaN or infinite; a map of
    strings is always encoded. *)
Definition encodable (p : Payload) : bool :=
  match p with
  | JAccount a => F64.is_finite (Balance a)
  | JError _ => true
  end.

(** [json.NewEncoder(w).Encode(p)], whose error the handlers drop.  When
    the value is refused nothing is written.  Otherwise the body is
    written, which sends the header with status 200 unless [WriteHeader]
    was called before. *)
Definition Encode (p : Payload) (w : ResponseWriter) : ResponseWriter :=
  if encodable p then
    let w' := WriteHeader StatusOK w in
    {| Header := Header w'; ContentType := ContentType w';
       Written := Written w' ++ [p] |}
  else w.

(** The status the client receives: 200 when the handler returns
    without having called [WriteHeader]. *)
Definition status (w : ResponseWriter) : Z :=
  default StatusOK (Header w).

(** The account representations in the response body. *)
Definition representations (w : ResponseWriter) : list Account :=
  omap (fun p => match p with JAccount a => Some a | JError _ => None end)
       (Written w).

(** *** The handlers *)

Definition withBalance (a : Account) (b : float64) : Account :=
  {| AccountID := AccountID a; AccountHolder := AccountHolder a;
     Balance := b; Currency := Currency a; Links := Links a |}.

Definition addHATEOASLinks (account : Account) (baseURL : string) : Account :=
  let links : gmap string Link := ∅ in
  let links :=
    <["self" := {| Href := baseURL ++ "/accounts/" ++ AccountID account;
                   Method := "GET"; Rel := "self" |}]> links in
  let links :=
    <["deposit" := {| Href := baseURL ++ "/accounts/" ++ AccountID account
                                 ++ "/deposit";
                      Method := "POST"; Rel := "deposit" |}]> links in
  let links :=
    if F64.gtb (Balance account) F64.zero then
      <["withdraw" := {| Href := baseURL ++ "/accounts/" ++ AccountID account
                                    ++ "/withdraw";
                         Method := "POST"; Rel := "withdraw" |}]> links
    else links in
  {| AccountID := AccountID account; AccountHolder := AccountHolder account;
     Balance := Balance account; Currency := Currency account;
     Links := links |}.

(** A handler: from the global [accounts] and the request to the new
    [accounts] and what was written to the [ResponseWriter]. *)
Definition Handler : Type :=
  gmap string Account -> Request -> gmap string Account * ResponseWriter.

Definition getAccount : Handler := fun accounts r =>
  let w := newResponse in
  if negb (String.eqb (ReqMethod r) "GET") then
    (accounts, WriteHeader StatusMethodNotAllowed w)
  else
    let accountID := strings.TrimPrefix (Path r) "/accounts/" in
    match accounts !! accountID with
    | None => (accounts, WriteHeader StatusNotFound w)
    | Some account =>
        let accountCopy := account in
        let baseURL := "http://" ++ Host r in
        let accountCopy := addHATEOASLinks accountCopy baseURL in
        let w := SetContentType "application/json" w in
        (accounts, Encode (JAccount accountCopy) w)
    end.

Definition deposit : Handler := fun accounts r =>
  let w := newResponse in
  if negb (String.eqb (ReqMethod r) "POST") then
    (accounts, WriteHeader StatusMethodNotAllowed w)
  else
    let parts := strings.Split (Path r) "/" in
    if (length parts <? 3)%nat then
      (accounts, WriteHeader StatusBadRequest w)
    else
      let accountID := nth 2 parts "" in
      match accounts !! accountID with
      | None => (accounts, WriteHeader StatusNotFound w)
      | Some account =>
          match Body r with
          | None => (accounts, WriteHeader StatusBadRequest w)
          | Some transaction =>
              if F64.leb (Amount transaction) F64.zero then
                let w := WriteHeader StatusBadRequest w in
                (accounts, Encode (JError "Amount must be positive") w)
              else
                let account :=
                  withBalance account
                    (F64.add (Balance account) (Amount transaction)) in
                let accounts := <[accountID := account]> accounts in
                let accountCopy := account in
                let baseURL := "http://" ++ Host r in
                let accountCopy := addHATEOASLinks accountCopy baseURL in
                let w := SetContentType "application/json" w in
                (accounts, Encode (JAccount accountCopy) w)
          end
      end.

Definition withdraw : Handler := fun accounts r =>
  let w := newResponse in
  if negb (String.eqb (ReqMethod r) "POST") then
    (accounts, WriteHeader StatusMethodNotAllowed w)
  else
    let parts := strings.Split (Path r) "/" in
    if (length parts <? 3)%nat then
      (accounts, WriteHeader StatusBadRequest w)
    else
      let accountID := nth 2 parts "" in
      match accounts !! accountID with
      | None => (accounts, WriteHeader StatusNotFound w)
      | Some account =>
          if F64.leb (Balance account) F64.zero then
            let w := WriteHeader StatusForbidden w in
            (accounts,
             Encode (JError "Withdrawal not allowed with negative balance") w)
          else
            match Body r with
            | None => (accounts, WriteHeader StatusBadRequest w)
            | Some transaction =>
                if F64.leb (Amount transaction) F64.zero then
                  let w := WriteHeader StatusBadRequest w in
                  (accounts, Encode (JError "Amount must be positive") w)
                else
                  let account :=
                    withBalance account
                      (F64.sub (Balance account) (Amount transaction)) in
                  let accounts := <[accountID := account]> accounts in
                  let accountCopy := account in
                  let baseURL := "http://" ++ Host r in
                  let accountCopy := addHATEOASLinks accountCopy baseURL in
                  let w := SetContentType "application/json" w in
                  (accounts, Encode (JAccount accountCopy) w)
            end
      end.

(** The closure registered for ["/accounts/"] in [main]. *)
Definition serve : Handler := fun accounts r =>
  let path := Path r in
  if strings.HasSuffix path "/deposit" then deposit accounts r
  else if strings.HasSuffix path "/withdraw" then withdraw accounts r
  else getAccount accounts r.

(** *** Requests as a client sends them *)

Definition GET (host id : string) : Request :=
  {| ReqMethod := "GET"; Path := "/accounts/" ++ id; Host := host;
     Body := None |}.

Definition POST (host id action : string) (body : option Transaction) : Request :=
  {| ReqMethod := "POST"; Path := "/accounts/" ++ id ++ "/" ++ action;
     Host := host; Body := body |}.

(** An [{id}] path segment holds no ['/']. *)
Fixpoint segment (s : string) : bool :=
  match s with
  | EmptyString => true
  | String c s' => negb (Ascii.eqb c "/") && segment s'
  end.

(** A JSON number decodes to a [float64] value that is neither NaN nor
    infinite (out of range literals are a decoding error). *)
Definition decodable (r : Request) : bool :=
  match Body r with
  | None => true
  | Some t => F64.valid (Amount t) && F64.is_finite (Amount t)
  end.

(** The store after the requests [rs] have been served one after the
    other. *)
Fixpoint run (accounts : gmap string Account) (rs : list Request)
  : gmap string Account :=
  match rs with
  | [] => accounts
  | r :: rs' => run (serve accounts r).1 rs'
  end.

End Bank.

(** ** The single-account server *)

(** The bank API with one account and the browser client (the second Go
    program of the sources).  The structs, [Request] and [ResponseWriter]
    are those of [Bank]. *)

Module BankApi.
Import Bank.

(** The package variables [balance] and [account] (the struct behind the
    pointer), and what the route closures print. *)
Record World := mkWorld {
  balance : float64;
  account : Account;
  stdout : list string
}.

Definition initial : World :=
  {| balance := F64.of_dyadic 5003 (-2);
     account := {| AccountID := "acc-123";
                   AccountHolder := "John Doe";
                   Balance := F64.of_dyadic 5003 (-2);
                   Currency := "USD";
                   Links := ∅ |};
     stdout := [] |}.

(** An assignment through the pointer [account]. *)
Definition setAccount (g : World) (a : Account) : World :=
  {| balance := balance g; account := a; stdout := stdout g |}.

Definition Printf (line : string) (g : World) : World :=
  {| balance := balance g; account := account g;
     stdout := stdout g ++ [line] |}.

Definition addHATEOASLinks (account : Account) (baseURL : string) : Account :=
  let links : gmap string Link := ∅ in
  let links :=
    <["self" := {| Href := baseURL ++ "/account";
                   Method := "GET"; Rel := "self" |}]> links in
  let links :=
    <["deposit" := {| Href := baseURL ++ "/account/deposit";
                      Method := "POST"; Rel := "deposit" |}]> links in
  let links :=
    if F64.gtb (Balance account) F64.zero then
      <["withdraw" := {| Href := baseURL ++ "/account/withdraw";
                         Method := "POST"; Rel := "withdraw" |}]> links
    else links in
  {| AccountID := AccountID account; AccountHolder := AccountHolder account;
     Balance := Balance account; Currency := Currency account;
     Links := links |}.

Definition Handler : Type := World -> Request -> World * ResponseWriter.

(** Here the links are written to the global account itself, and it is the
    global account that is encoded. *)
Definition getAccount : Handler := fun g r =>
  let w := newResponse in
  if negb (String.eqb (ReqMethod r) "GET") then
    (g, WriteHeader StatusMethodNotAllowed w)
  else
    let baseURL := "http://" ++ Host r in
    let g := setAccount g (addHATEOASLinks (account g) baseURL) in
    let w := SetContentType "application/json" w in
    (g, Encode (JAccount (account g)) w).

Definition deposit : Handler := fun g r =>
  let w := newResponse in
  if negb (String.eqb (ReqMethod r) "POST") then
    (g, WriteHeader StatusMethodNotAllowed w)
  else
    match Body r with
    | None => (g, WriteHeader StatusBadRequest w)
    | Some transaction =>
        if F64.leb (Amount transaction) F64.zero then
          let w := WriteHeader StatusBadRequest w in
          (g, Encode (JError "Amount must be positive") w)
        else
          let g :=
            setAccount g
              (withBalance (account g)
                 (F64.add (Balance (account g)) (Amount transaction))) in
          let baseURL := "http://" ++ Host r in
          let g := setAccount g (addHATEOASLinks (account g) baseURL) in
          let w := SetContentType "application/json" w in
          (g, Encode (JAccount (account g)) w)
    end.

(** The guard reads the package variable [balance], not
    [account.Balance]. *)
Definition withdraw : Handler := fun g r =>
  let w := newResponse in
  if negb (String.eqb (ReqMethod r) "POST") then
    (g, WriteHeader StatusMethodNotAllowed w)
  else if F64.leb (balance g) F64.zero then
    let w := WriteHeader StatusForbidden w in
    (g, Encode (JError "Withdrawal not allowed with negative balance") w)
  else
    match Body r with
    | None => (g, WriteHeader StatusBadRequest w)
    | Some transaction =>
        if F64.leb (Amount transaction) F64.zero then
          let w := WriteHeader StatusBadRequest w in
          (g, Encode (JError "Amount must be positive") w)
        else
          let g :=
            setAccount g
              (withBalance (account g)
                 (F64.sub (Balance (account g)) (Amount transaction))) in
          let baseURL := "http://" ++ Host r in
          let g := setAccount g (addHATEOASLinks (account g) baseURL) in
          let w := SetContentType "application/json" w in
          (g, Encode (JAccount (account g)) w)
    end.

(** [fmt.Printf("%s %s\n", r.Method, r.URL.Path)] *)
Definition logLine (r : Request) : string :=
  ReqMethod r ++ " " ++ Path r ++ String "010" EmptyString.

(** The three closures [main] registers, for ["/account"],
    ["/account/deposit"] and ["/account/withdraw"]. *)
Definition accountRoute : Handler := fun g r =>
  let g := Printf (logLine r) g in
  if String.eqb (ReqMethod r) "GET" then getAccount g r
  else (g, WriteHeader StatusMethodNotAllowed newResponse).

Definition depositRoute : Handler := fun g r =>
  let g := Printf (logLine r) g in
  deposit g r.

Definition withdrawRoute : Handler := fun g r =>
  let g := Printf (logLine r) g in
  withdraw g r.

(** The closure registered for the exact path of the request; [None] for
    every other path, which goes to the file server under ["/"]. *)
Definition route (r : Request) : option Handler :=
  if String.eqb (Path r) "/account" then Some accountRoute
  else if String.eqb (Path r) "/account/deposit" then Some depositRoute
  else if String.eqb (Path r) "/account/withdraw" then Some withdrawRoute
  else None.

(** One request; the file server does not touch the package variables. *)
Definition step (g : World) (r : Request) : World :=
  match route r with
  | Some h => (h g r).1
  | None => g
  end.

(** The world after the requests [rs] have been served one after the
    other. *)
Definition run (g : World) (rs : list Request) : World :=
  foldl step g rs.

End BankApi.

(** ** The discovery engine *)

Module Discovery.

(** Modelled from the spec: the Capability Mapper, the Discovery Engine and
    the Notification Dispatcher (the polling server, [mcp-server.py], is not
    among the sources).  The data model follows section 3 of the
    specification, the transitions section 4.3 and 4.4. *)

(** An action descriptor of the action map: target URL, HTTP method (may be
    absent), relation name. *)
Record ActionDescriptor := mkAction {
  href : string;
  method : option string;
  rel : string
}.

(** A snapshot of the resource; the action map is kept in the order in
    which its entries were received. *)
Record Representation := mkRepresentation {
  identifier : string;
  balance : float64;
  actionMap : list (string * ActionDescriptor)
}.

(** The capabilities of a catalog: name to (target, method). *)
Record Catalog := mkCatalog {
  capabilities : gmap string (string * string);
  version : nat;
  timestamp : Z
}.

(** Catalog equality: the same names with the same (target, method);
    version and timestamp are left out. *)
Definition catalogEqual (c1 c2 : Catalog) : bool :=
  bool_decide (capabilities c1 = capabilities c2).

Definition emptyCatalog : Catalog :=
  {| capabilities := ∅; version := 0; timestamp := 0 |}.

(** [map(representation)]: one capability per entry, name = relation key,
    target = href, method = method, ["GET"] when absent; version 0. *)
Definition capabilityOf (d : ActionDescriptor) : string * string :=
  (href d, default "GET" (method d)).

Definition mapper (r : Representation) : Catalog :=
  {| capabilities :=
       foldr (fun e caps => <[e.1 := capabilityOf e.2]> caps) ∅ (actionMap r);
     version := 0;
     timestamp := 0 |}.

(** The result of [fetch]. *)
Inductive FetchResult :=
| Fetched (r : Representation)
| NetworkError
| NotFound
| DecodeError.

(** A change notification: the new version, the names gained and lost. *)
Record Notification := mkNotification {
  newVersion : nat;
  added : gset string;
  removed : gset string
}.

(** The engine owns the current catalog; the dispatcher keeps one bounded
    queue of pending notifications per live subscription. *)
Record Engine := mkEngine {
  current : Catalog;
  capacity : nat;
  queues : gmap nat (list Notification)
}.

Definition initial (cap : nat) : Engine :=
  {| current := emptyCatalog; capacity := cap; queues := ∅ |}.

(** [subscribe] opens an empty queue under a fresh handle; [unsubscribe]
    drops it. *)
Definition subscribe (e : Engine) : Engine * nat :=
  let h := fresh (dom (queues e)) in
  ({| current := current e; capacity := capacity e;
      queues := <[h := []]> (queues e) |}, h).

Definition unsubscribe (h : nat) (e : Engine) : Engine :=
  {| current := current e; capacity := capacity e;
     queues := delete h (queues e) |}.

Definition currentCatalog (e : Engine) : Catalog := current e.

(** Hand-off to one subscriber: when the queue is full the oldest pending
    notification gives way to the newest. *)
Definition enqueue (cap : nat) (n : Notification) (q : list Notification)
  : list Notification :=
  let q' := (q ++ [n])%list in
  drop (length q' - cap) q'.

Definition publish (n : Notification) (e : Engine) : Engine :=
  {| current := current e; capacity := capacity e;
     queues := enqueue (capacity e) n <$> queues e |}.

(** One poll: Polling, Diffing, then Stable or Publishing.  The second
    component lists the notifications published by this poll. *)
Definition poll (e : Engine) (res : FetchResult) (now : Z)
  : Engine * list Notification :=
  match res with
  | Fetched r =>
      let candidate := mapper r in
      if catalogEqual candidate (current e) then (e, [])
      else
        let next := {| capabilities := capabilities candidate;
                       version := S (version (current e));
                       timestamp := now |} in
        let n := {| newVersion := version next;
                    added := dom (capabilities next)
                             ∖ dom (capabilities (current e));
                    removed := dom (capabilities (current e))
                               ∖ dom (capabilities next) |} in
        (publish n {| current := next; capacity := capacity e;
                      queues := queues e |}, [n])
  | NetworkError | NotFound | DecodeError => (e, [])
  end.

(** Two action maps are identical, whatever the order of their entries,
    when they are the same mapping from relation name to descriptor. *)
Definition sameActionMap (r1 r2 : Representation) : Prop :=
  (list_to_map (actionMap r1) : gmap string ActionDescriptor)
  = list_to_map (actionMap r2).

End Discovery.

(** * Properties *)

(** ** binary64: the sign of a difference *)

Module F64Facts.
Import F64.
Local Open Scope Z_scope.

Lemma digits2_pos_bounds (m : positive) :
  2 ^ (Zpos (digits2_pos m) - 1) <= Zpos m < 2 ^ Zpos (digits2_pos m).
Proof.
  induction m as [m IH | m IH |]; simpl digits2_pos.
  - rewrite Pos2Z.inj_succ.
    replace (Z.succ (Z.pos (digits2_pos m)) - 1) with
      (Z.succ (Z.pos (digits2_pos m) - 1)) by lia.
    rewrite !Z.pow_succ_r by lia. lia.
  - rewrite Pos2Z.inj_succ.
    replace (Z.succ (Z.pos (digits2_pos m)) - 1) with
      (Z.succ (Z.pos (digits2_pos m) - 1)) by lia.
    rewrite !Z.pow_succ_r by lia. lia.
  - simpl. lia.
Qed.

Lemma shr_1_m (mrs : shr_record) :
  0 <= shr_m mrs -> shr_m (shr_1 mrs) = shr_m mrs / 2.
Proof.
  destruct mrs as [m r s]; simpl. intros Hm.
  destruct m as [| p | p]; [reflexivity | | lia].
  destruct p as [p | p |]; simpl.
  - rewrite (Pos2Z.inj_xI p). apply Z.div_unique with (r := 1); lia.
  - rewrite (Pos2Z.inj_xO p). apply Z.div_unique with (r := 0); lia.
  - reflexivity.
Qed.

Lemma iter_pos_shr_1_m (p : positive) : forall mrs : shr_record,
  0 <= shr_m mrs ->
  shr_m (SpecFloat.iter_pos shr_1 p mrs) = shr_m mrs / 2 ^ Zpos p.
Proof.
  assert (Hnn : forall mrs, 0 <= shr_m mrs -> 0 <= shr_m (shr_1 mrs)).
  { intros mrs H. rewrite shr_1_m by assumption. apply Z.div_pos; lia. }
  induction p as [p IH | p IH |]; intros mrs Hm; simpl SpecFloat.iter_pos.
  - assert (Hp : 2 ^ Zpos p~1 = 2 * 2 ^ Zpos p * 2 ^ Zpos p).
    { rewrite (Pos2Z.inj_xI p), <- Z.add_diag, !Z.pow_add_r by lia.
      change (2 ^ 1) with 2. lia. }
    pose proof (Z.pow_pos_nonneg 2 (Zpos p)) as Hpos.
    rewrite IH, IH, shr_1_m; auto.
    + rewrite Hp, !Z.div_div by lia; try (f_equal; lia).
    + rewrite IH by auto. apply Z.div_pos; [auto | lia].
  - assert (Hp : 2 ^ Zpos p~0 = 2 ^ Zpos p * 2 ^ Zpos p).
    { rewrite (Pos2Z.inj_xO p), <- Z.add_diag, Z.pow_add_r by lia. reflexivity. }
    pose proof (Z.pow_pos_nonneg 2 (Zpos p)) as Hpos.
    rewrite IH, IH; auto.
    + rewrite Hp, !Z.div_div by lia; try (f_equal; lia).
    + rewrite IH by auto. apply Z.div_pos; [auto | lia].
  - rewrite shr_1_m by assumption. reflexivity.
Qed.

Lemma shr_record_of_loc_m (m : Z) (l : location) :
  shr_m (shr_record_of_loc m l) = m.
Proof. destruct l as [| []]; reflexivity. Qed.

Lemma shr_fexp_pos (m e : Z) (l : location) :
  0 < m -> emin <= e ->
  0 < shr_m (fst (shr_fexp prec emax m e l))
  /\ emin <= snd (shr_fexp prec emax m e l).
Proof.
  intros Hm He. unfold shr_fexp, shr.
  destruct m as [| p | p]; try lia. simpl Zdigits2.
  pose proof (digits2_pos_bounds p) as [Hlo _].
  set (d := Zpos (digits2_pos p)) in *.
  assert (Hd : 0 < d) by (unfold d; lia).
  destruct (fexp prec emax (d + e) - e) as [| n | n] eqn:Hn; simpl fst; simpl snd.
  - rewrite shr_record_of_loc_m. lia.
  - rewrite iter_pos_shr_1_m by (rewrite shr_record_of_loc_m; lia).
    rewrite shr_record_of_loc_m.
    assert (Hnd : Zpos n = d - prec).
    { unfold fexp in Hn. fold emin in Hn. lia. }
    split; [| lia].
    apply Z.div_str_pos. split; [lia |].
    rewrite Hnd. etransitivity; [| exact Hlo].
    apply Z.pow_le_mono_r; unfold prec; lia.
  - rewrite shr_record_of_loc_m. lia.
Qed.

Lemma round_nearest_even_pos (m : Z) (l : location) :
  0 < m -> 0 < round_nearest_even m l.
Proof.
  intros Hm. destruct l as [| []]; simpl; try lia.
  destruct (Z.even m); lia.
Qed.

Lemma binary_round_aux_sign (s : bool) (m e : Z) (l : location) :
  0 < m -> emin <= e ->
  binary_round_aux prec emax s m e l = S754_infinity s
  \/ exists m' e', binary_round_aux prec emax s m e l = S754_finite s m' e'.
Proof.
  intros Hm He. unfold binary_round_aux.
  pose proof (shr_fexp_pos m e l Hm He) as [H1 H2].
  destruct (shr_fexp prec emax m e l) as [mrs' e']. simpl in H1, H2.
  pose proof (round_nearest_even_pos _ (loc_of_shr_record mrs') H1) as H3.
  pose proof (shr_fexp_pos _ e' loc_Exact H3 H2) as [H4 _].
  destruct (shr_fexp prec emax _ e' loc_Exact) as [mrs'' e'']. simpl in H4.
  destruct (shr_m mrs'') as [| q | q]; try lia.
  destruct (e'' <=? emax - prec); eauto.
Qed.

Lemma binary_round_sign (s : bool) (m : positive) (e : Z) :
  emin <= e ->
  binary_round prec emax s m e = S754_infinity s
  \/ exists m' e', binary_round prec emax s m e = S754_finite s m' e'.
Proof.
  intros He. unfold binary_round.
  destruct (shl_align m e _) as [mz ez] eqn:Hal.
  apply binary_round_aux_sign; [lia |].
  unfold shl_align in Hal.
  destruct (fexp prec emax (Z.pos (digits2_pos m) + e) - e) eqn:Hd;
    inversion Hal; subst; try assumption.
  unfold fexp. fold emin. lia.
Qed.

Lemma iter_xO_pow (m d : positive) :
  Zpos (Pos.iter xO m d) = Zpos m * 2 ^ Zpos d.
Proof.
  induction d as [| d IH] using Pos.peano_ind.
  - simpl. lia.
  - rewrite Pos.iter_succ, Pos2Z.inj_xO, IH, Pos2Z.inj_succ, Z.pow_succ_r by lia.
    lia.
Qed.

Lemma shl_align_value (m : positive) (e e' : Z) :
  e' <= e -> Zpos (fst (shl_align m e e')) = Zpos m * 2 ^ (e - e').
Proof.
  intros Hle. unfold shl_align.
  destruct (e' - e) as [| d | d] eqn:Hd; simpl fst; try lia.
  - replace (e - e') with 0 by lia. lia.
  - rewrite iter_xO_pow. f_equal. f_equal. lia.
Qed.

Lemma valid_finite (s : bool) (m : positive) (e : Z) :
  valid (S754_finite s m e) = true ->
  emin <= e /\ Zpos (digits2_pos m) <= prec
  /\ (emin < e -> Zpos (digits2_pos m) = prec).
Proof.
  unfold valid, valid_binary, bounded, canonical_mantissa, fexp. fold emin.
  intros H. apply andb_prop in H as [H _]. apply Z.eqb_eq in H. lia.
Qed.

Lemma sub_lt_sign (b a : float64) :
  valid b = true -> valid a = true ->
  gtb b zero = true -> gtb a b = true ->
  sub b a = S754_infinity true
  \/ exists m e, sub b a = S754_finite true m e.
Proof.
  intros Vb Va Hb Hab.
  destruct b as [sb | sb | | sb mb eb]; try discriminate Hb;
    destruct sb; try discriminate Hb.
  - destruct a as [[] | [] | | [] ? ?]; discriminate Hab.
  - destruct a as [sa | sa | | sa ma ea]; try discriminate Hab;
      destruct sa; try discriminate Hab.
    + left. reflexivity.
    + apply valid_finite in Vb as (Hbe & Hbd & Hbn).
      apply valid_finite in Va as (Hae & Had & Han).
      pose proof (digits2_pos_bounds mb) as [Hb1 Hb2].
      pose proof (digits2_pos_bounds ma) as [Ha1 Ha2].
      unfold sub, SFsub, cond_Zopp.
      rewrite !shl_align_value by lia.
      assert (Hlt : Zpos mb * 2 ^ (eb - Z.min eb ea)
                    < Zpos ma * 2 ^ (ea - Z.min eb ea)).
      { unfold gtb, SFltb, SFcompare in Hab.
        destruct (eb ?= ea) eqn:Hc; try discriminate Hab.
        - apply Z.compare_eq in Hc. subst ea.
          rewrite Z.min_id, Z.sub_diag. change (2 ^ 0) with 1. rewrite !Z.mul_1_r.
          assert ((mb ?= ma)%positive = Lt) as Hm.
          { unfold Pos.compare. destruct (Pos.compare_cont Eq mb ma); congruence. }
          exact Hm.
        - assert (Hc' : eb < ea) by exact Hc.
          rewrite Z.min_l, Z.sub_diag by lia. change (2 ^ 0) with 1. rewrite Z.mul_1_r.
          specialize (Han ltac:(lia)). rewrite Han in Ha1.
          assert (2 ^ prec = 2 * 2 ^ (prec - 1)) as Hp.
          { reflexivity. }
          assert (Zpos mb < 2 ^ prec).
          { eapply Z.lt_le_trans; [exact Hb2 |].
            apply Z.pow_le_mono_r; lia. }
          assert (2 <= 2 ^ (ea - eb)) by (change 2 with (2 ^ 1) at 1; apply Z.pow_le_mono_r; lia).
          nia. }
      unfold binary_normalize.
      destruct (Z.pos mb * _ - Z.pos ma * _) as [| p | p] eqn:Hdiff; try lia.
      apply binary_round_sign. lia.
Qed.

End F64Facts.

(** ** binary64: the operations stay within the format *)

Module F64Closure.
Import F64 F64Facts.
Local Open Scope Z_scope.

Lemma digits_unique (m d : Z) :
  0 < m -> 2 ^ (d - 1) <= m < 2 ^ d -> Zdigits2 m = d.
Proof.
  intros Hm [Hlo Hhi].
  destruct m as [| p | p]; try lia. simpl Zdigits2.
  pose proof (digits2_pos_bounds p) as [Plo Phi].
  set (k := Zpos (digits2_pos p)) in *.
  assert (Hk : 0 < k) by (unfold k; lia).
  assert (Hd : 0 < d).
  { destruct (Z_lt_le_dec 0 d) as [|Hle]; [assumption |].
    destruct d as [| q | q]; [simpl in Hhi; lia | lia |].
    rewrite Z.pow_neg_r in Hhi by lia. lia. }
  destruct (Z.lt_trichotomy k d) as [Hlt | [Heq | Hgt]]; [| exact Heq |].
  - assert (2 ^ k <= 2 ^ (d - 1)) by (apply Z.pow_le_mono_r; lia). lia.
  - assert (2 ^ d <= 2 ^ (k - 1)) by (apply Z.pow_le_mono_r; lia). lia.
Qed.

Lemma digits_bounds (m : Z) :
  0 < m -> 2 ^ (Zdigits2 m - 1) <= m < 2 ^ Zdigits2 m.
Proof.
  intros Hm. destruct m as [| p | p]; try lia. apply digits2_pos_bounds.
Qed.

Lemma digits_pos (m : Z) : 0 < m -> 0 < Zdigits2 m.
Proof. intros Hm. destruct m as [| p | p]; simpl; lia. Qed.

Lemma digits_mono (m m' : Z) :
  0 < m -> m <= m' -> Zdigits2 m <= Zdigits2 m'.
Proof.
  intros Hm Hle.
  pose proof (digits_bounds m Hm) as [Hlo _].
  pose proof (digits_bounds m' ltac:(lia)) as [_ Hhi].
  destruct (Z_lt_le_dec (Zdigits2 m') (Zdigits2 m)) as [Hlt | ]; [| assumption].
  assert (2 ^ Zdigits2 m' <= 2 ^ (Zdigits2 m - 1)).
  { apply Z.pow_le_mono_r; [lia |]. lia. }
  lia.
Qed.

Lemma digits_shiftl (m k : Z) :
  0 < m -> 0 <= k -> Zdigits2 (m * 2 ^ k) = Zdigits2 m + k.
Proof.
  intros Hm Hk.
  pose proof (digits_bounds m Hm) as [Hlo Hhi].
  pose proof (digits_pos m Hm) as Hd.
  pose proof (Z.pow_pos_nonneg 2 k ltac:(lia) Hk) as Hp.
  apply digits_unique; [nia |].
  replace (Zdigits2 m + k - 1) with (Zdigits2 m - 1 + k) by lia.
  rewrite !Z.pow_add_r by lia. nia.
Qed.

Lemma digits_shiftr (m k : Z) :
  0 < m -> 0 <= k -> 0 < m / 2 ^ k ->
  Zdigits2 (m / 2 ^ k) = Zdigits2 m - k.
Proof.
  intros Hm Hk Hq.
  pose proof (digits_bounds m Hm) as [Hlo Hhi].
  pose proof (digits_pos m Hm) as Hd.
  pose proof (Z.pow_pos_nonneg 2 k ltac:(lia) Hk) as Hp.
  assert (Hkd : k < Zdigits2 m).
  { destruct (Z_lt_le_dec k (Zdigits2 m)) as [| Hge]; [assumption |].
    assert (2 ^ Zdigits2 m <= 2 ^ k) by (apply Z.pow_le_mono_r; lia).
    rewrite Z.div_small in Hq by lia. lia. }
  apply digits_unique; [assumption |]. split.
  - apply Z.div_le_lower_bound; [lia |].
    rewrite <- Z.pow_add_r by lia.
    replace (k + (Zdigits2 m - k - 1)) with (Zdigits2 m - 1) by lia. exact Hlo.
  - apply Z.div_lt_upper_bound; [lia |].
    rewrite <- Z.pow_add_r by lia.
    replace (k + (Zdigits2 m - k)) with (Zdigits2 m) by lia. exact Hhi.
Qed.

(** A shift to the exponent [fexp] demands leaves a canonical mantissa. *)
Lemma shr_fexp_canonical (m e : Z) (l : location) :
  0 < m -> emin <= e -> e <= fexp prec emax (Zdigits2 m + e) ->
  let r := shr_fexp prec emax m e l in
  0 < shr_m r.1 /\ emin <= r.2
  /\ fexp prec emax (Zdigits2 (shr_m r.1) + r.2) = r.2.
Proof.
  intros Hm He Hf r.
  pose proof (shr_fexp_pos m e l Hm He) as [Hpos Hmin].
  fold r in Hpos, Hmin. split; [exact Hpos |]. split; [exact Hmin |].
  revert Hpos Hmin. unfold r, shr_fexp, shr.
  destruct (fexp prec emax (Zdigits2 m + e) - e) as [| n | n] eqn:Hn;
    cbn [fst snd]; try lia.
  - rewrite shr_record_of_loc_m. lia.
  - rewrite iter_pos_shr_1_m by (rewrite shr_record_of_loc_m; lia).
    rewrite shr_record_of_loc_m. intros Hpos _.
    rewrite digits_shiftr by lia.
    replace (Zdigits2 m - Z.pos n + (e + Z.pos n)) with (Zdigits2 m + e) by lia.
    lia.
Qed.

Lemma round_nearest_even_bounds (m : Z) (l : location) :
  m <= round_nearest_even m l.
Proof.
  destruct l as [| []]; simpl; try lia. destruct (Z.even m); lia.
Qed.

Lemma fexp_mono (a b : Z) : a <= b -> fexp prec emax a <= fexp prec emax b.
Proof. unfold fexp. lia. Qed.

Lemma binary_round_aux_valid (s : bool) (m e : Z) (l : location) :
  0 < m -> emin <= e -> e <= fexp prec emax (Zdigits2 m + e) ->
  binary_round_aux prec emax s m e l = S754_infinity s
  \/ exists m' e', binary_round_aux prec emax s m e l = S754_finite s m' e'
                   /\ bounded prec emax m' e' = true.
Proof.
  intros Hm He Hf. unfold binary_round_aux.
  pose proof (shr_fexp_canonical m e l Hm He Hf) as (H1 & H2 & H3).
  cbv zeta in H1, H2, H3.
  destruct (shr_fexp prec emax m e l) as [mrs' e']. cbn [fst snd] in H1, H2, H3.
  pose proof (round_nearest_even_bounds (shr_m mrs') (loc_of_shr_record mrs'))
    as Hr.
  set (m2 := round_nearest_even (shr_m mrs') (loc_of_shr_record mrs')) in *.
  assert (Hm2 : 0 < m2) by lia.
  assert (Hf2 : e' <= fexp prec emax (Zdigits2 m2 + e')).
  { rewrite <- H3 at 1. apply fexp_mono.
    pose proof (digits_mono _ _ H1 Hr). lia. }
  pose proof (shr_fexp_canonical m2 e' loc_Exact Hm2 H2 Hf2) as (H4 & H5 & H6).
  cbv zeta in H4, H5, H6.
  destruct (shr_fexp prec emax m2 e' loc_Exact) as [mrs'' e''].
  cbn [fst snd] in H4, H5, H6.
  destruct (shr_m mrs'') as [| q | q]; try lia.
  destruct (e'' <=? emax - prec) eqn:Hle; [right | left; reflexivity].
  exists q, e''. split; [reflexivity |].
  unfold bounded, canonical_mantissa. rewrite Hle.
  simpl Zdigits2 in H6. rewrite H6, Z.eqb_refl. reflexivity.
Qed.

Lemma binary_round_valid (s : bool) (m : positive) (e : Z) :
  emin <= e ->
  binary_round prec emax s m e = S754_infinity s
  \/ exists m' e', binary_round prec emax s m e = S754_finite s m' e'
                   /\ bounded prec emax m' e' = true.
Proof.
  intros He. unfold binary_round.
  set (f := fexp prec emax (Z.pos (digits2_pos m) + e)).
  assert (Hfmin : emin <= f) by (unfold f, fexp; fold emin; lia).
  destruct (Z_lt_le_dec f e) as [Hlt | Hge].
  - pose proof (shl_align_value m e f ltac:(lia)) as Hv.
    assert (Hsnd : (shl_align m e f).2 = f).
    { unfold shl_align. destruct (f - e) eqn:Hd; try lia. reflexivity. }
    destruct (shl_align m e f) as [mz ez]. cbn [fst snd] in Hv, Hsnd. subst ez.
    apply binary_round_aux_valid; [lia | assumption |].
    rewrite Hv, digits_shiftl by lia. simpl Zdigits2.
    replace (Z.pos (digits2_pos m) + (e - f) + f)
      with (Z.pos (digits2_pos m) + e) by lia.
    fold f. lia.
  - assert (Hal : shl_align m e f = (m, e)).
    { unfold shl_align. destruct (f - e) eqn:Hd; try lia; reflexivity. }
    rewrite Hal. apply binary_round_aux_valid; [lia | assumption |].
    simpl Zdigits2. fold f. exact Hge.
Qed.

Lemma binary_normalize_valid (m e : Z) :
  emin <= e ->
  valid (binary_normalize prec emax m e false) = true
  /\ is_nan (binary_normalize prec emax m e false) = false.
Proof.
  intros He. unfold binary_normalize.
  destruct m as [| p | p]; [split; reflexivity | |].
  - destruct (binary_round_valid false p e He) as [-> | (m' & e' & -> & Hb)];
      split; try reflexivity. exact Hb.
  - destruct (binary_round_valid true p e He) as [-> | (m' & e' & -> & Hb)];
      split; try reflexivity. exact Hb.
Qed.

Lemma add_valid (x y : float64) :
  valid x = true -> valid y = true -> valid (add x y) = true.
Proof.
  intros Vx Vy.
  destruct x as [sx | sx | | sx mx ex], y as [sy | sy | | sy my ey];
    try reflexivity; try assumption;
    try (destruct sx, sy; reflexivity).
  apply valid_finite in Vx as (Hx & _). apply valid_finite in Vy as (Hy & _).
  unfold add, SFadd. apply binary_normalize_valid. lia.
Qed.

Lemma sub_valid (x y : float64) :
  valid x = true -> valid y = true -> valid (sub x y) = true.
Proof.
  intros Vx Vy.
  destruct x as [sx | sx | | sx mx ex], y as [sy | sy | | sy my ey];
    try reflexivity; try assumption;
    try (destruct sx, sy; reflexivity).
  apply valid_finite in Vx as (Hx & _). apply valid_finite in Vy as (Hy & _).
  unfold sub, SFsub. apply binary_normalize_valid. lia.
Qed.

Lemma add_not_nan (x y : float64) :
  valid x = true -> valid y = true ->
  is_nan x = false -> is_finite y = true -> is_nan (add x y) = false.
Proof.
  intros Vx Vy Nx Fy.
  destruct x as [sx | sx | | sx mx ex], y as [sy | sy | | sy my ey];
    try discriminate; try reflexivity;
    try (destruct sx, sy; reflexivity).
  apply valid_finite in Vx as (Hx & _). apply valid_finite in Vy as (Hy & _).
  unfold add, SFadd. apply binary_normalize_valid. lia.
Qed.

Lemma sub_not_nan (x y : float64) :
  valid x = true -> valid y = true ->
  is_nan x = false -> is_finite y = true -> is_nan (sub x y) = false.
Proof.
  intros Vx Vy Nx Fy.
  destruct x as [sx | sx | | sx mx ex], y as [sy | sy | | sy my ey];
    try discriminate; try reflexivity;
    try (destruct sx, sy; reflexivity).
  apply valid_finite in Vx as (Hx & _). apply valid_finite in Vy as (Hy & _).
  unfold sub, SFsub. apply binary_normalize_valid. lia.
Qed.

(** Comparisons with zero, away from NaN. *)
Lemma gt_zero_negb_le (x : float64) :
  is_nan x = false -> gtb x zero = negb (leb x zero).
Proof.
  intros H. destruct x as [[] | [] | | [] m e]; try discriminate H; reflexivity.
Qed.

Lemma sub_self (x : float64) :
  is_finite x = true -> sub x x = zero.
Proof.
  intros H. destruct x as [[] | [] | | s m e]; try discriminate H;
    try reflexivity.
  unfold sub, SFsub. rewrite Z.min_id, Z.sub_diag. reflexivity.
Qed.

Lemma sub_nonpos_negative (b a : float64) :
  valid b = true -> valid a = true ->
  leb b zero = true -> gtb a zero = true ->
  ltb (sub b a) zero = true /\ gtb (sub b a) zero = false.
Proof.
  intros Vb Va Hb Ha.
  destruct a as [sa | sa | | sa ma ea]; try discriminate Ha;
    destruct sa; try discriminate Ha;
    destruct b as [sb | sb | | sb mb eb]; try discriminate Hb;
    destruct sb; try discriminate Hb; try (split; reflexivity).
  apply valid_finite in Vb as (Hbe & _). apply valid_finite in Va as (Hae & _).
  unfold sub, SFsub, cond_Zopp, binary_normalize.
  destruct (- Z.pos _ - Z.pos _) as [| p | p] eqn:Hd; try lia.
  destruct (binary_round_sign true p (Z.min eb ea) ltac:(lia))
    as [-> | (m' & e' & ->)]; split; reflexivity.
Qed.

End F64Closure.

(** ** binary64: rounding keeps the order *)

Module F64Monotone.
Import F64 F64Facts F64Closure.
Local Open Scope Z_scope.

(** The coarsest unit a value of [d] binary digits is a multiple of. *)
Local Abbreviation grain x := (2 ^ Z.max (Zdigits2 x - prec) 0).

Lemma grain_pos x : 0 < grain x.
Proof. apply Z.pow_pos_nonneg; lia. Qed.

Lemma pow_split (a b : Z) : 0 <= a <= b -> 2 ^ b = 2 ^ (b - a) * 2 ^ a.
Proof. intros H. rewrite <- Z.pow_add_r by lia. f_equal. lia. Qed.

(** A power of two at or above the unit of [x] is a multiple of it. *)
Lemma grain_divides_pow (x k : Z) :
  0 < x -> Zdigits2 x - 1 <= k -> exists c, 2 ^ k = c * grain x.
Proof.
  intros Hx Hk. pose proof (digits_pos x Hx).
  exists (2 ^ (k - Z.max (Zdigits2 x - prec) 0)).
  apply pow_split. unfold prec. lia.
Qed.

Lemma multiples_lt (a b g : Z) : 0 < g -> a * g < b * g -> a * g + g <= b * g.
Proof.
  intros Hg H. apply Z.mul_lt_mono_pos_r in H; [| assumption].
  replace (a * g + g) with ((a + 1) * g) by ring.
  apply Z.mul_le_mono_nonneg_r; lia.
Qed.

(** Rounding down never goes below a representable value under [x]. *)
Lemma round_down_above (x z c : Z) :
  0 < z -> z <= x -> z = c * grain z -> z <= x / grain x * grain x.
Proof.
  intros Hz Hle Hrep. assert (Hx : 0 < x) by lia.
  pose proof (grain_pos x) as Hu.
  pose proof (digits_mono z x Hz Hle) as Hd.
  destruct (Z.eq_dec (Zdigits2 z) (Zdigits2 x)) as [Heq | Hne].
  - rewrite Heq in Hrep. rewrite Hrep at 1.
    apply Z.mul_le_mono_nonneg_r; [lia |].
    apply Z.div_le_lower_bound; lia.
  - pose proof (digits_bounds z Hz) as [_ Hzhi].
    pose proof (digits_bounds x Hx) as [Hxlo _].
    destruct (grain_divides_pow x (Zdigits2 x - 1) Hx ltac:(lia)) as [c' Hc'].
    assert (2 ^ Zdigits2 z <= 2 ^ (Zdigits2 x - 1))
      by (apply Z.pow_le_mono_r; lia).
    assert (c' <= x / grain x) by (apply Z.div_le_lower_bound; lia).
    nia.
Qed.

(** Rounding up never goes above a representable value over [x]. *)
Lemma round_up_below (x z c : Z) :
  0 < x -> x < z -> z = c * grain z -> x / grain x * grain x + grain x <= z.
Proof.
  intros Hx Hlt Hrep. assert (Hz : 0 < z) by lia.
  pose proof (grain_pos x) as Hu.
  pose proof (digits_mono x z Hx ltac:(lia)) as Hd.
  pose proof (Z.mul_div_le x (grain x) Hu) as Hq.
  pose proof (Z.mul_succ_div_gt x (grain x) Hu) as Hq'.
  destruct (Z.eq_dec (Zdigits2 z) (Zdigits2 x)) as [Heq | Hne].
  - rewrite Heq in Hrep. rewrite Hrep. apply multiples_lt; [lia |]. nia.
  - pose proof (digits_bounds x Hx) as [_ Hxhi].
    pose proof (digits_bounds z Hz) as [Hzlo _].
    destruct (grain_divides_pow x (Zdigits2 x) Hx ltac:(lia)) as [c' Hc'].
    assert (2 ^ Zdigits2 x <= 2 ^ (Zdigits2 z - 1))
      by (apply Z.pow_le_mono_r; lia).
    assert (x / grain x * grain x + grain x <= 2 ^ Zdigits2 x).
    { rewrite Hc'. apply multiples_lt; [lia |]. nia. }
    lia.
Qed.

(** The value of a finite float in units of [2^emin]. *)
Local Abbreviation units m e := (Z.pos m * 2 ^ (e - emin)).

Lemma bounded_facts (m : positive) (e : Z) :
  bounded prec emax m e = true ->
  emin <= e /\ e <= emax - prec
  /\ Zdigits2 (Z.pos m) <= prec
  /\ (emin < e -> Zdigits2 (Z.pos m) = prec)
  /\ fexp prec emax (Zdigits2 (Z.pos m) + e) = e.
Proof.
  unfold bounded, canonical_mantissa, fexp. fold emin. cbn [Zdigits2].
  intros H. apply andb_prop in H as [H1 H2].
  apply Z.eqb_eq in H1. apply Z.leb_le in H2. lia.
Qed.

(** A finite float is a multiple of its own grain and lies below the
    overflow threshold. *)
Lemma units_representable (m : positive) (e : Z) :
  bounded prec emax m e = true ->
  0 < units m e
  /\ units m e = Z.pos m * grain (units m e)
  /\ units m e < 2 ^ (emax - emin).
Proof.
  intros Hb. destruct (bounded_facts m e Hb) as (He & Hmax & Hd & Hn & Hf).
  pose proof (Z.pow_pos_nonneg 2 (e - emin) ltac:(lia) ltac:(lia)) as Hp.
  split; [lia |]. split.
  - rewrite digits_shiftl by lia. f_equal. f_equal.
    unfold fexp in Hf. fold emin in Hf. lia.
  - pose proof (digits_bounds (Z.pos m) ltac:(lia)) as [_ Hhi].
    assert (2 ^ Zdigits2 (Z.pos m) <= 2 ^ prec)
      by (apply Z.pow_le_mono_r; lia).
    assert (2 ^ prec * 2 ^ (e - emin) <= 2 ^ (emax - emin)).
    { rewrite <- Z.pow_add_r by (unfold prec; lia).
      apply Z.pow_le_mono_r; lia. }
    nia.
Qed.

Lemma compare_units (m1 m2 : positive) (e1 e2 : Z) :
  bounded prec emax m1 e1 = true -> bounded prec emax m2 e2 = true ->
  match e1 ?= e2 with
  | Lt => Lt
  | Gt => Gt
  | Eq => Pos.compare_cont Eq m1 m2
  end = (units m1 e1 ?= units m2 e2).
Proof.
  intros H1 H2.
  destruct (bounded_facts m1 e1 H1) as (He1 & _ & Hd1 & Hn1 & _).
  destruct (bounded_facts m2 e2 H2) as (He2 & _ & Hd2 & Hn2 & _).
  pose proof (digits_bounds (Z.pos m1) ltac:(lia)) as [Hl1 Hh1].
  pose proof (digits_bounds (Z.pos m2) ltac:(lia)) as [Hl2 Hh2].
  assert (Hstep : forall ma mb ea eb,
             Zdigits2 ma <= prec -> Zdigits2 mb = prec ->
             ma < 2 ^ Zdigits2 ma -> 2 ^ (Zdigits2 mb - 1) <= mb ->
             emin <= ea -> ea < eb ->
             ma * 2 ^ (ea - emin) < mb * 2 ^ (eb - emin)).
  { intros ma mb ea eb Hda Hdb Hha Hlb Hea Hlt.
    rewrite Hdb in Hlb.
    assert (2 ^ Zdigits2 ma <= 2 ^ prec) by (apply Z.pow_le_mono_r; lia).
    assert (Hp : 2 ^ prec = 2 * 2 ^ (prec - 1)) by reflexivity.
    pose proof (Z.pow_pos_nonneg 2 (ea - emin) ltac:(lia) ltac:(lia)).
    assert (Hs : 2 ^ (eb - emin) = 2 ^ (eb - ea) * 2 ^ (ea - emin)).
    { rewrite <- Z.pow_add_r by lia. f_equal. lia. }
    assert (2 <= 2 ^ (eb - ea))
      by (change 2 with (2 ^ 1) at 1; apply Z.pow_le_mono_r; lia).
    assert (0 < 2 ^ (prec - 1)) by (apply Z.pow_pos_nonneg; unfold prec; lia).
    assert (ma < mb * 2 ^ (eb - ea)) by nia.
    rewrite Hs, Z.mul_assoc. apply Z.mul_lt_mono_pos_r; assumption. }
  destruct (e1 ?= e2) eqn:Hc.
  - apply Z.compare_eq in Hc. subst e2.
    pose proof (Z.pow_pos_nonneg 2 (e1 - emin) ltac:(lia) ltac:(lia)) as Hp.
    change (Pos.compare_cont Eq m1 m2) with (m1 ?= m2)%positive.
    symmetry. destruct (Pos.compare_spec m1 m2) as [-> | Hlt | Hgt].
    + apply Z.compare_refl.
    + apply Z.compare_lt_iff. apply Z.mul_lt_mono_pos_r; lia.
    + apply Z.compare_gt_iff. apply Z.mul_lt_mono_pos_r; lia.
  - assert (e1 < e2) by exact Hc. symmetry. apply Z.compare_lt_iff.
    apply Hstep; auto; lia.
  - assert (e2 < e1) by (apply Z.compare_gt_iff; exact Hc).
    symmetry. apply Z.compare_gt_iff. apply Hstep; auto; lia.
Qed.

Lemma leb_finite_pos (m1 m2 : positive) (e1 e2 : Z) :
  bounded prec emax m1 e1 = true -> bounded prec emax m2 e2 = true ->
  units m1 e1 <= units m2 e2 ->
  leb (S754_finite false m1 e1) (S754_finite false m2 e2) = true.
Proof.
  intros H1 H2 Hle. unfold leb, SFleb, SFcompare.
  rewrite (compare_units m1 m2 e1 e2 H1 H2).
  destruct (units m1 e1 ?= units m2 e2) eqn:Hc; try reflexivity.
  assert (units m2 e2 < units m1 e1) by (apply Z.compare_gt_iff; exact Hc).
  lia.
Qed.

Lemma leb_finite_neg (m1 m2 : positive) (e1 e2 : Z) :
  bounded prec emax m1 e1 = true -> bounded prec emax m2 e2 = true ->
  units m2 e2 <= units m1 e1 ->
  leb (S754_finite true m1 e1) (S754_finite true m2 e2) = true.
Proof.
  intros H1 H2 Hle. unfold leb, SFleb, SFcompare.
  pose proof (compare_units m1 m2 e1 e2 H1 H2) as Hcmp.
  destruct (e1 ?= e2).
  - rewrite Hcmp.
    destruct (units m1 e1 ?= units m2 e2) eqn:Hc; try reflexivity.
    assert (units m1 e1 < units m2 e2) by exact Hc. lia.
  - symmetry in Hcmp. assert (units m1 e1 < units m2 e2) by exact Hcmp. lia.
  - reflexivity.
Qed.

Lemma shr_fexp_value (m e : Z) (l : location) :
  0 < m -> emin <= e -> e <= fexp prec emax (Zdigits2 m + e) ->
  shr_m (shr_fexp prec emax m e l).1
  = m / 2 ^ (fexp prec emax (Zdigits2 m + e) - e)
  /\ (shr_fexp prec emax m e l).2 = fexp prec emax (Zdigits2 m + e).
Proof.
  intros Hm He Hf. unfold shr_fexp, shr.
  destruct (fexp prec emax (Zdigits2 m + e) - e) as [| n | n] eqn:Hn;
    cbn [fst snd]; try lia.
  - rewrite shr_record_of_loc_m, Z.div_1_r. lia.
  - rewrite iter_pos_shr_1_m by (rewrite shr_record_of_loc_m; lia).
    rewrite shr_record_of_loc_m. lia.
Qed.

Lemma round_nearest_even_le (m : Z) (l : location) :
  round_nearest_even m l <= m + 1.
Proof. destruct l as [| []]; simpl; try lia. destruct (Z.even m); lia. Qed.

Lemma fexp_succ (z : Z) : fexp prec emax (z + 1) <= fexp prec emax z + 1.
Proof. unfold fexp. lia. Qed.

(** What [binary_round_aux] returns, in units of [2^emin]: the mantissa
    rounded down at the exponent [fexp] demands, or one more. *)
Lemma binary_round_aux_value (s : bool) (m e : Z) (l : location) :
  0 < m -> emin <= e -> e <= fexp prec emax (Zdigits2 m + e) ->
  let f := fexp prec emax (Zdigits2 m + e) in
  let q := m / 2 ^ (f - e) in
  exists v,
    q * 2 ^ (f - emin) <= v <= q * 2 ^ (f - emin) + 2 ^ (f - emin)
    /\ ((binary_round_aux prec emax s m e l = S754_infinity s
         /\ 2 ^ (emax - emin) <= v)
        \/ exists m' e',
             binary_round_aux prec emax s m e l = S754_finite s m' e'
             /\ bounded prec emax m' e' = true
             /\ v = units m' e').
Proof.
  intros Hm He Hf f q.
  assert (Hfmin : emin <= f) by (unfold f, fexp; fold emin; lia).
  pose proof (Z.pow_pos_nonneg 2 (f - emin) ltac:(lia) ltac:(lia)) as HG.
  unfold binary_round_aux.
  pose proof (shr_fexp_canonical m e l Hm He Hf) as (H1 & H2 & H3).
  pose proof (shr_fexp_value m e l Hm He Hf) as [Hq He'].
  cbv zeta in H1, H2, H3. fold f in Hq, He'. fold q in Hq.
  destruct (shr_fexp prec emax m e l) as [mrs' e'].
  cbn [fst snd] in H1, H2, H3, Hq, He'. subst e'.
  pose proof (round_nearest_even_bounds (shr_m mrs') (loc_of_shr_record mrs'))
    as Hlo.
  pose proof (round_nearest_even_le (shr_m mrs') (loc_of_shr_record mrs'))
    as Hhi.
  set (m2 := round_nearest_even (shr_m mrs') (loc_of_shr_record mrs')) in *.
  rewrite Hq in H1, H3, Hlo, Hhi.
  assert (Hm2 : 0 < m2) by lia.
  pose proof (digits_mono _ _ H1 Hlo) as Hdm.
  assert (Hf2 : f <= fexp prec emax (Zdigits2 m2 + f)).
  { rewrite <- H3 at 1. apply fexp_mono. lia. }
  pose proof (shr_fexp_canonical m2 f loc_Exact Hm2 Hfmin Hf2) as (H4 & H5 & H6).
  pose proof (shr_fexp_value m2 f loc_Exact Hm2 Hfmin Hf2) as [Hq3 He3].
  cbv zeta in H4, H5, H6.
  destruct (shr_fexp prec emax m2 f loc_Exact) as [mrs'' e''].
  cbn [fst snd] in H4, H5, H6, Hq3, He3.
  exists (m2 * 2 ^ (f - emin)). split; [nia |].
  (* the second shift is exact *)
  assert (Hexact : shr_m mrs'' * 2 ^ (e'' - emin) = m2 * 2 ^ (f - emin)).
  { destruct (Z.eq_dec (Zdigits2 m2) (Zdigits2 q)) as [Hd | Hd].
    - assert (Hef : e'' = f) by (rewrite He3, Hd; exact H3).
      rewrite Hef, Hq3, Hd, H3, Z.sub_diag, Z.div_1_r.
      reflexivity.
    - pose proof (digits_bounds q H1) as [_ Hqhi].
      pose proof (digits_bounds m2 Hm2) as [Hm2lo _].
      pose proof (digits_pos q H1) as Hdq.
      assert (2 ^ Zdigits2 q <= 2 ^ (Zdigits2 m2 - 1))
        by (apply Z.pow_le_mono_r; lia).
      assert (Hpow : m2 = 2 ^ Zdigits2 q) by lia.
      assert (Hd2 : Zdigits2 m2 = Zdigits2 q + 1).
      { apply digits_unique; [lia |].
        replace (Zdigits2 q + 1 - 1) with (Zdigits2 q) by lia.
        rewrite Z.pow_add_r by lia. lia. }
      pose proof (fexp_succ (Zdigits2 q + f)) as Hs.
      rewrite H3 in Hs.
      replace (Zdigits2 q + f + 1) with (Zdigits2 m2 + f) in Hs by lia.
      assert (Hcases : e'' = f \/ e'' = f + 1) by lia.
      destruct Hcases as [-> | ->].
      + rewrite Hq3, <- He3, Z.sub_diag, Z.div_1_r. reflexivity.
      + rewrite Hq3, <- He3.
        replace (f + 1 - f) with 1 by lia.
        replace (f + 1 - emin) with (1 + (f - emin)) by lia.
        rewrite Z.pow_add_r by lia. rewrite Hpow.
        replace (Zdigits2 q) with (1 + (Zdigits2 q - 1)) at 1 by lia.
        rewrite Z.pow_add_r by lia.
        change (2 ^ 1) with 2.
        rewrite (Z.mul_comm 2 (2 ^ (Zdigits2 q - 1))), Z.div_mul by lia.
        replace (Zdigits2 q) with (1 + (Zdigits2 q - 1)) at 2 by lia.
        rewrite Z.pow_add_r by lia. change (2 ^ 1) with 2. ring. }
  destruct (shr_m mrs'') as [| m3 | m3] eqn:Hm3; try lia.
  destruct (e'' <=? emax - prec) eqn:Hle.
  - right. exists m3, e''. split; [reflexivity |]. split.
    + unfold bounded, canonical_mantissa. rewrite Hle.
      cbn [Zdigits2] in H6. rewrite H6, Z.eqb_refl. reflexivity.
    + symmetry. exact Hexact.
  - left. split; [reflexivity |]. rewrite <- Hexact.
    apply Z.leb_gt in Hle.
    assert (Hprec : Zdigits2 (Z.pos m3) = prec).
    { unfold fexp in H6. fold emin in H6. unfold emin, SpecFloat.emin, emax, prec in *. lia. }
    pose proof (digits_bounds (Z.pos m3) ltac:(lia)) as [Hl3 _].
    rewrite Hprec in Hl3.
    assert (2 ^ (emax - emin) <= 2 ^ (prec - 1) * 2 ^ (e'' - emin)).
    { rewrite <- Z.pow_add_r by (unfold prec; lia).
      apply Z.pow_le_mono_r; lia. }
    pose proof (Z.pow_pos_nonneg 2 (e'' - emin) ltac:(lia) ltac:(lia)).
    nia.
Qed.

(** What [binary_round] returns for the exact value [x] (in units of
    [2^emin]): [x] rounded down to a multiple of its grain, or one grain
    more. *)
Lemma binary_round_value (s : bool) (p : positive) (e : Z) :
  emin <= e ->
  let x := units p e in
  exists v,
    x / grain x * grain x <= v <= x / grain x * grain x + grain x
    /\ ((binary_round prec emax s p e = S754_infinity s
         /\ 2 ^ (emax - emin) <= v)
        \/ exists m' e',
             binary_round prec emax s p e = S754_finite s m' e'
             /\ bounded prec emax m' e' = true
             /\ v = units m' e').
Proof.
  intros He x. unfold binary_round.
  set (f := fexp prec emax (Z.pos (digits2_pos p) + e)).
  assert (Hfmin : emin <= f) by (unfold f, fexp; fold emin; lia).
  pose proof (Z.pow_pos_nonneg 2 (e - emin) ltac:(lia) ltac:(lia)) as Hpe.
  pose proof (Z.pow_pos_nonneg 2 (f - emin) ltac:(lia) ltac:(lia)) as Hpf.
  assert (Hgrain : grain x = 2 ^ (f - emin)).
  { unfold x. rewrite digits_shiftl by lia. f_equal.
    unfold f, fexp. fold emin. cbn [Zdigits2]. lia. }
  rewrite Hgrain.
  destruct (Z_lt_le_dec f e) as [Hlt | Hge].
  - pose proof (shl_align_value p e f ltac:(lia)) as Hv.
    assert (Hsnd : (shl_align p e f).2 = f).
    { unfold shl_align. destruct (f - e) eqn:Hd; try lia. reflexivity. }
    destruct (shl_align p e f) as [mz ez]. cbn [fst snd] in Hv, Hsnd. subst ez.
    assert (Hdz : Zdigits2 (Z.pos mz) + f = Z.pos (digits2_pos p) + e).
    { rewrite Hv, digits_shiftl by lia. cbn [Zdigits2]. lia. }
    assert (Hfz : fexp prec emax (Zdigits2 (Z.pos mz) + f) = f)
      by (rewrite Hdz; reflexivity).
    destruct (binary_round_aux_value s (Z.pos mz) f loc_Exact)
      as (v & Hb & Hres); [lia | assumption | lia |].
    cbv zeta in Hb. rewrite Hfz, Z.sub_diag, Z.div_1_r in Hb.
    assert (Hx : x = Z.pos mz * 2 ^ (f - emin)).
    { unfold x. rewrite Hv, <- Z.mul_assoc, <- Z.pow_add_r by lia.
      f_equal. f_equal. lia. }
    exists v. split; [| exact Hres].
    rewrite Hx, Z.div_mul by lia. exact Hb.
  - assert (Hal : shl_align p e f = (p, e)).
    { unfold shl_align. destruct (f - e) eqn:Hd; try lia; reflexivity. }
    rewrite Hal.
    destruct (binary_round_aux_value s (Z.pos p) e loc_Exact)
      as (v & Hb & Hres); [lia | assumption | exact Hge |].
    cbv zeta in Hb. cbn [Zdigits2] in Hb. fold f in Hb.
    exists v. split; [| exact Hres].
    assert (Hq : x / 2 ^ (f - emin) = Z.pos p / 2 ^ (f - e)).
    { unfold x.
      replace (f - emin) with ((f - e) + (e - emin)) by lia.
      rewrite Z.pow_add_r by lia.
      apply Z.div_mul_cancel_r; [| lia].
      pose proof (Z.pow_pos_nonneg 2 (f - e) ltac:(lia) ltac:(lia)). lia. }
    rewrite Hq. exact Hb.
Qed.

(** Rounding a positive exact value [x]: the result is at least every
    float at or under [x], and at most every float over [x]. *)
Lemma binary_round_pos (p : positive) (e : Z) (mb : positive) (eb : Z) :
  emin <= e -> bounded prec emax mb eb = true ->
  (units mb eb <= units p e ->
   leb (S754_finite false mb eb) (binary_round prec emax false p e) = true
   /\ leb (binary_round prec emax true p e) (S754_finite true mb eb) = true)
  /\ (units p e < units mb eb ->
      leb (binary_round prec emax false p e) (S754_finite false mb eb) = true
      /\ leb (S754_finite true mb eb) (binary_round prec emax true p e)
         = true).
Proof.
  intros He Hb.
  destruct (units_representable mb eb Hb) as (Hzpos & Hzrep & Hztop).
  pose proof (Z.pow_pos_nonneg 2 (e - emin) ltac:(lia) ltac:(lia)) as Hpe.
  assert (Hx : 0 < units p e) by lia.
  split; intros Hle.
  - pose proof (round_down_above _ _ _ Hzpos Hle Hzrep) as Hdown.
    split.
    + destruct (binary_round_value false p e He)
        as (v & [Hlo _] & [[-> _] | (m' & e' & -> & Hb' & ->)]);
        [reflexivity |].
      apply leb_finite_pos; [assumption .. | lia].
    + destruct (binary_round_value true p e He)
        as (v & [Hlo _] & [[-> _] | (m' & e' & -> & Hb' & ->)]);
        [reflexivity |].
      apply leb_finite_neg; [assumption .. | lia].
  - pose proof (round_up_below _ _ _ Hx Hle Hzrep) as Hup.
    split.
    + destruct (binary_round_value false p e He)
        as (v & [_ Hhi] & [[_ Htop] | (m' & e' & -> & Hb' & ->)]);
        [lia |].
      apply leb_finite_pos; [assumption .. | lia].
    + destruct (binary_round_value true p e He)
        as (v & [_ Hhi] & [[_ Htop] | (m' & e' & -> & Hb' & ->)]);
        [lia |].
      apply leb_finite_neg; [assumption .. | lia].
Qed.

Lemma units_align (m : positive) (e ez : Z) :
  emin <= ez -> ez <= e ->
  units m e = Z.pos m * 2 ^ (e - ez) * 2 ^ (ez - emin).
Proof.
  intros H1 H2. rewrite <- Z.mul_assoc, <- Z.pow_add_r by lia.
  f_equal. f_equal. lia.
Qed.

Ltac aligned mb eb ma ea :=
  rewrite !shl_align_value by lia;
  pose proof (units_align mb eb (Z.min eb ea) ltac:(lia) ltac:(lia)) as Hub;
  pose proof (units_align ma ea (Z.min eb ea) ltac:(lia) ltac:(lia)) as Hua;
  pose proof (Z.pow_pos_nonneg 2 (eb - Z.min eb ea) ltac:(lia) ltac:(lia));
  pose proof (Z.pow_pos_nonneg 2 (ea - Z.min eb ea) ltac:(lia) ltac:(lia));
  pose proof (Z.pow_pos_nonneg 2 (Z.min eb ea - emin) ltac:(lia) ltac:(lia)).

(** Adding an amount greater than zero never gives less. *)
Lemma add_pos_ge (b a : float64) :
  valid b = true -> valid a = true ->
  is_nan b = false -> is_finite a = true -> gtb a zero = true ->
  leb b (add b a) = true.
Proof.
  intros Vb Va Nb Fa Hpos.
  destruct a as [sa | sa | | sa ma ea]; try discriminate Fa;
    try discriminate Hpos.
  destruct sa; [discriminate Hpos |].
  destruct b as [sb | sb | | sb mb eb]; try discriminate Nb.
  - destruct sb; reflexivity.
  - destruct sb; reflexivity.
  - destruct (valid_finite _ _ _ Vb) as (Heb & _).
    destruct (valid_finite _ _ _ Va) as (Hea & _).
    unfold add, SFadd, cond_Zopp, binary_normalize.
    aligned mb eb ma ea.
    destruct sb.
    + destruct (- (Z.pos mb * _) + Z.pos ma * _) as [| p | p] eqn:Hs;
        [reflexivity | |].
      * destruct (binary_round_sign false p (Z.min eb ea) ltac:(lia))
          as [-> | (m' & e' & ->)]; reflexivity.
      * apply (binary_round_pos p (Z.min eb ea) mb eb ltac:(lia) Vb).
        rewrite Hub. apply Z.mul_lt_mono_pos_r; lia.
    + destruct (Z.pos mb * _ + Z.pos ma * _) as [| p | p] eqn:Hs; try lia.
      apply (binary_round_pos p (Z.min eb ea) mb eb ltac:(lia) Vb).
      rewrite Hub. apply Z.mul_le_mono_nonneg_r; lia.
Qed.

(** Subtracting an amount greater than zero never gives more. *)
Lemma sub_pos_le (b a : float64) :
  valid b = true -> valid a = true ->
  is_nan b = false -> is_finite a = true -> gtb a zero = true ->
  leb (sub b a) b = true.
Proof.
  intros Vb Va Nb Fa Hpos.
  destruct a as [sa | sa | | sa ma ea]; try discriminate Fa;
    try discriminate Hpos.
  destruct sa; [discriminate Hpos |].
  destruct b as [sb | sb | | sb mb eb]; try discriminate Nb.
  - destruct sb; reflexivity.
  - destruct sb; reflexivity.
  - destruct (valid_finite _ _ _ Vb) as (Heb & _).
    destruct (valid_finite _ _ _ Va) as (Hea & _).
    unfold sub, SFsub, cond_Zopp, binary_normalize.
    aligned mb eb ma ea.
    destruct sb.
    + destruct (- (Z.pos mb * _) - Z.pos ma * _) as [| p | p] eqn:Hs;
        try lia.
      apply (binary_round_pos p (Z.min eb ea) mb eb ltac:(lia) Vb).
      rewrite Hub. apply Z.mul_le_mono_nonneg_r; lia.
    + destruct (Z.pos mb * _ - Z.pos ma * _) as [| p | p] eqn:Hs;
        [reflexivity | |].
      * apply (binary_round_pos p (Z.min eb ea) mb eb ltac:(lia) Vb).
        rewrite Hub. apply Z.mul_lt_mono_pos_r; lia.
      * destruct (binary_round_sign true p (Z.min eb ea) ltac:(lia))
          as [-> | (m' & e' & ->)]; reflexivity.
Qed.

(** The difference of two floats of the same sign does not overflow:
    taking an amount from a smaller balance gives a finite result. *)
Lemma sub_lt_finite (b a : float64) :
  valid b = true -> valid a = true -> is_finite a = true ->
  gtb b zero = true -> gtb a b = true ->
  is_finite (sub b a) = true.
Proof.
  intros Vb Va Fa Hb Hab.
  destruct (sub_lt_sign b a Vb Va Hb Hab) as [Hinf | (m & e & ->)];
    [| reflexivity].
  exfalso.
  destruct b as [sb | sb | | sb mb eb]; try discriminate Hb;
    destruct sb; try discriminate Hb;
    destruct a as [sa | sa | | sa ma ea]; try discriminate Fa;
    try discriminate Hab; destruct sa; try discriminate Hab.
  destruct (valid_finite _ _ _ Vb) as (Heb & _).
  destruct (valid_finite _ _ _ Va) as (Hea & _).
  revert Hinf. unfold sub, SFsub, cond_Zopp, binary_normalize.
  aligned mb eb ma ea.
  destruct (Z.pos mb * _ - Z.pos ma * _) as [| p | p] eqn:Hs;
    [discriminate | |].
  - destruct (binary_round_sign false p (Z.min eb ea) ltac:(lia))
      as [-> | (m' & e' & ->)]; discriminate.
  - intros Hinf.
    assert (Hle : leb (S754_finite true ma ea)
                    (binary_round prec emax true p (Z.min eb ea)) = true).
    { apply (binary_round_pos p (Z.min eb ea) ma ea ltac:(lia) Va).
      rewrite Hua. apply Z.mul_lt_mono_pos_r; lia. }
    rewrite Hinf in Hle. discriminate Hle.
Qed.

(** Taking an infinite amount leaves no finite balance. *)
Lemma sub_infinite (b a : float64) :
  gtb a b = true -> is_finite a = false -> is_finite (sub b a) = false.
Proof.
  intros Hab Fa.
  destruct a as [sa | [] | | sa ma ea]; try discriminate Fa;
    destruct b as [[] | [] | | [] mb eb]; try discriminate Hab;
    reflexivity.
Qed.

End F64Monotone.

(** ** Paths *)

Module StringsFacts.
Import strings.

Lemma length_append (x y : string) :
  String.length (x ++ y) = (String.length x + String.length y)%nat.
Proof. induction x as [| c x IH]; simpl; [reflexivity | now rewrite IH]. Qed.

Lemma substring_append_skip (x y : string) (k n : nat) :
  String.substring (String.length x + k) n (x ++ y) = String.substring k n y.
Proof. induction x as [| c x IH]; simpl; [reflexivity | exact IH]. Qed.

Lemma substring_whole (s : string) :
  String.substring 0 (String.length s) s = s.
Proof. induction s as [| c s IH]; simpl; [reflexivity | now rewrite IH]. Qed.

Lemma HasSuffix_append (x y suffix : string) :
  (String.length suffix <= String.length y)%nat ->
  HasSuffix (x ++ y) suffix = HasSuffix y suffix.
Proof.
  intros Hle. unfold HasSuffix. rewrite length_append.
  replace (String.length x + String.length y - String.length suffix)%nat
    with (String.length x + (String.length y - String.length suffix))%nat by lia.
  rewrite substring_append_skip.
  destruct (Nat.leb_spec (String.length suffix) (String.length y)); [| lia].
  destruct (Nat.leb_spec (String.length suffix)
              (String.length x + String.length y)); [reflexivity | lia].
Qed.

Lemma TrimPrefix_append (pre s : string) : TrimPrefix (pre ++ s) pre = s.
Proof.
  unfold TrimPrefix, HasPrefix.
  assert (Hp : String.prefix pre (pre ++ s) = true).
  { induction pre as [| c pre IH]; simpl.
    - destruct s; reflexivity.
    - destruct (ascii_dec c c); [exact IH | congruence]. }
  rewrite Hp, length_append.
  replace (String.length pre + String.length s - String.length pre)%nat
    with (String.length s) by lia.
  rewrite <- (Nat.add_0_r (String.length pre)) at 1.
  rewrite substring_append_skip. apply substring_whole.
Qed.

Lemma Split_segment (id rest : string) :
  Bank.segment id = true ->
  Split (id ++ String "/" rest) "/" = id :: Split rest "/".
Proof.
  induction id as [| c id IH]; simpl; intros Hseg.
  - reflexivity.
  - apply andb_prop in Hseg as [Hc Hid].
    apply negb_true_iff in Hc. rewrite Hc, (IH Hid). reflexivity.
Qed.

End StringsFacts.

Module Routing.
Import strings Bank StringsFacts.

Lemma POST_parts (host id action : string) (body : option Transaction) :
  segment id = true ->
  exists rest, Split (Path (POST host id action body)) "/"
               = "" :: "accounts" :: id :: rest.
Proof.
  intros Hseg. exists (Split action "/").
  unfold POST. cbn [Path].
  change ("/accounts/" ++ id ++ "/" ++ action)
    with (String "/" ("accounts" ++ String "/" (id ++ String "/" action))).
  cbn [Split]. rewrite Ascii.eqb_refl.
  rewrite (Split_segment "accounts") by reflexivity.
  rewrite (Split_segment id) by assumption. reflexivity.
Qed.

Lemma serve_deposit accts host id body :
  serve accts (POST host id "deposit" body)
  = deposit accts (POST host id "deposit" body).
Proof.
  unfold serve, POST. cbn [Path].
  change ("/accounts/" ++ id ++ "/" ++ "deposit")
    with ("/accounts/" ++ id ++ "/deposit").
  rewrite !HasSuffix_append by (rewrite ?length_append; simpl; lia). reflexivity.
Qed.

Lemma serve_withdraw accts host id body :
  serve accts (POST host id "withdraw" body)
  = withdraw accts (POST host id "withdraw" body).
Proof.
  unfold serve, POST. cbn [Path].
  change ("/accounts/" ++ id ++ "/" ++ "withdraw")
    with ("/accounts/" ++ id ++ "/withdraw").
  rewrite !HasSuffix_append by (rewrite ?length_append; simpl; lia). reflexivity.
Qed.

End Routing.

(** ** binary64: comparisons against zero *)

Module F64Order.
Import F64.

Lemma gt_zero_not_le (x : float64) :
  gtb x zero = true -> leb x zero = false.
Proof.
  intros H.
  destruct x as [[] | [] | | [] m e]; try discriminate H; reflexivity.
Qed.

Lemma le_zero_not_gt (x : float64) :
  leb x zero = true -> gtb x zero = false.
Proof.
  intros H.
  destruct x as [[] | [] | | [] m e]; try discriminate H; reflexivity.
Qed.

Lemma gt_above_positive (b a : float64) :
  gtb b zero = true -> gtb a b = true -> gtb a zero = true.
Proof.
  intros Hb Hab.
  destruct b as [[] | [] | | [] mb eb]; try discriminate Hb;
    destruct a as [[] | [] | | [] ma ea]; try discriminate Hab; reflexivity.
Qed.

Lemma sub_lt_negative (b a : float64) :
  valid b = true -> valid a = true ->
  gtb b zero = true -> gtb a b = true ->
  ltb (sub b a) zero = true /\ gtb (sub b a) zero = false.
Proof.
  intros Vb Va Hb Hab.
  destruct (F64Facts.sub_lt_sign b a Vb Va Hb Hab) as [-> | (m & e & ->)];
    split; reflexivity.
Qed.

End F64Order.

(** ** The handlers on well-formed requests *)

Module Handlers.
Import strings Bank StringsFacts Routing.

(** [Encode] changes neither the status the client receives nor the
    content type; it adds the payload when the encoder accepts it. *)
Lemma status_Encode p w : status (Encode p w) = status w.
Proof.
  unfold Encode, status, WriteHeader.
  destruct (encodable p); [| reflexivity].
  destruct (Header w) eqn:E; cbn [Header]; rewrite ?E; reflexivity.
Qed.

Lemma ContentType_Encode p w : ContentType (Encode p w) = ContentType w.
Proof.
  unfold Encode, WriteHeader.
  destruct (encodable p); [| reflexivity].
  destruct (Header w) eqn:E; reflexivity.
Qed.

Lemma Written_Encode p w :
  Written (Encode p w)
  = if encodable p then (Written w ++ [p])%list else Written w.
Proof.
  unfold Encode, WriteHeader.
  destruct (encodable p); [| reflexivity].
  destruct (Header w) eqn:E; reflexivity.
Qed.

(** The body of a successful response: the account, unless the encoder
    refuses its balance. *)
Lemma Written_account a c :
  Written (Encode (JAccount a) (SetContentType c newResponse))
  = if F64.is_finite (Balance a) then [JAccount a] else [].
Proof. rewrite Written_Encode. reflexivity. Qed.

Ltac absurd_status H :=
  rewrite ?status_Encode in H; vm_compute in H; discriminate H.

Lemma status_account a c :
  status (Encode (JAccount a) (SetContentType c newResponse)) = StatusOK.
Proof. rewrite status_Encode. reflexivity. Qed.

Lemma representations_account a c :
  representations (Encode (JAccount a) (SetContentType c newResponse))
  = if F64.is_finite (Balance a) then [a] else [].
Proof.
  unfold representations. rewrite Written_account.
  destruct (F64.is_finite (Balance a)); reflexivity.
Qed.

Lemma deposit_POST accts host id body acc :
  segment id = true -> accts !! id = Some acc ->
  deposit accts (POST host id "deposit" body)
  = match body with
    | None => (accts, WriteHeader StatusBadRequest newResponse)
    | Some t =>
        if F64.leb (Amount t) F64.zero then
          (accts, Encode (JError "Amount must be positive")
                    (WriteHeader StatusBadRequest newResponse))
        else
          let acc' := withBalance acc (F64.add (Balance acc) (Amount t)) in
          (<[id := acc']> accts,
           Encode (JAccount (addHATEOASLinks acc' ("http://" ++ host)))
             (SetContentType "application/json" newResponse))
    end.
Proof.
  intros Hseg Hacc.
  destruct (POST_parts host id "deposit" body Hseg) as [rest Hp].
  unfold deposit. rewrite Hp.
  cbn [POST ReqMethod Host Body length nth Nat.ltb Nat.leb String.eqb
       Ascii.eqb Bool.eqb negb].
  rewrite Hacc. reflexivity.
Qed.

Lemma withdraw_POST accts host id body acc :
  segment id = true -> accts !! id = Some acc ->
  withdraw accts (POST host id "withdraw" body)
  = if F64.leb (Balance acc) F64.zero then
      (accts, Encode (JError "Withdrawal not allowed with negative balance")
                (WriteHeader StatusForbidden newResponse))
    else
      match body with
      | None => (accts, WriteHeader StatusBadRequest newResponse)
      | Some t =>
          if F64.leb (Amount t) F64.zero then
            (accts, Encode (JError "Amount must be positive")
                      (WriteHeader StatusBadRequest newResponse))
          else
            let acc' := withBalance acc (F64.sub (Balance acc) (Amount t)) in
            (<[id := acc']> accts,
             Encode (JAccount (addHATEOASLinks acc' ("http://" ++ host)))
               (SetContentType "application/json" newResponse))
      end.
Proof.
  intros Hseg Hacc.
  destruct (POST_parts host id "withdraw" body Hseg) as [rest Hp].
  unfold withdraw. rewrite Hp.
  cbn [POST ReqMethod Host Body length nth Nat.ltb Nat.leb String.eqb
       Ascii.eqb Bool.eqb negb].
  rewrite Hacc. reflexivity.
Qed.

(** A withdrawal that passes both checks. *)
Lemma withdraw_accepted accts host id amount acc :
  segment id = true -> accts !! id = Some acc ->
  F64.gtb (Balance acc) F64.zero = true ->
  F64.gtb amount F64.zero = true ->
  withdraw accts (POST host id "withdraw" (Some {| Amount := amount |}))
  = (<[id := withBalance acc (F64.sub (Balance acc) amount)]> accts,
     Encode (JAccount (addHATEOASLinks
                         (withBalance acc (F64.sub (Balance acc) amount))
                         ("http://" ++ host)))
       (SetContentType "application/json" newResponse)).
Proof.
  intros Hseg Hacc Hbal Hpos.
  rewrite (withdraw_POST _ _ _ _ acc) by assumption. cbn [Amount].
  rewrite (F64Order.gt_zero_not_le _ Hbal), (F64Order.gt_zero_not_le _ Hpos).
  reflexivity.
Qed.

(** A deposit that passes the check. *)
Lemma deposit_accepted accts host id amount acc :
  segment id = true -> accts !! id = Some acc ->
  F64.gtb amount F64.zero = true ->
  deposit accts (POST host id "deposit" (Some {| Amount := amount |}))
  = (<[id := withBalance acc (F64.add (Balance acc) amount)]> accts,
     Encode (JAccount (addHATEOASLinks
                         (withBalance acc (F64.add (Balance acc) amount))
                         ("http://" ++ host)))
       (SetContentType "application/json" newResponse)).
Proof.
  intros Hseg Hacc Hpos.
  rewrite (deposit_POST _ _ _ _ acc) by assumption. cbn [Amount].
  rewrite (F64Order.gt_zero_not_le _ Hpos). reflexivity.
Qed.

Lemma getAccount_GET accts host id :
  getAccount accts (GET host id)
  = match accts !! id with
    | None => (accts, WriteHeader StatusNotFound newResponse)
    | Some acc =>
        (accts, Encode (JAccount (addHATEOASLinks acc ("http://" ++ host)))
                  (SetContentType "application/json" newResponse))
    end.
Proof.
  unfold getAccount, GET.
  cbn [ReqMethod Path Host String.eqb Ascii.eqb Bool.eqb negb].
  rewrite TrimPrefix_append. reflexivity.
Qed.

(** What [addHATEOASLinks] puts in the [_links] map. *)
Lemma links_self acc base :
  Links (addHATEOASLinks acc base) !! "self"
  = Some {| Href := base ++ "/accounts/" ++ AccountID acc;
            Method := "GET"; Rel := "self" |}.
Proof.
  unfold addHATEOASLinks. cbn [Links].
  destruct (F64.gtb (Balance acc) F64.zero);
    repeat (rewrite lookup_insert_ne by discriminate);
    apply lookup_insert_eq.
Qed.

Lemma links_deposit acc base :
  Links (addHATEOASLinks acc base) !! "deposit"
  = Some {| Href := base ++ "/accounts/" ++ AccountID acc ++ "/deposit";
            Method := "POST"; Rel := "deposit" |}.
Proof.
  unfold addHATEOASLinks. cbn [Links].
  destruct (F64.gtb (Balance acc) F64.zero);
    repeat (rewrite lookup_insert_ne by discriminate);
    apply lookup_insert_eq.
Qed.

Lemma links_withdraw acc base :
  Links (addHATEOASLinks acc base) !! "withdraw"
  = if F64.gtb (Balance acc) F64.zero then
      Some {| Href := base ++ "/accounts/" ++ AccountID acc ++ "/withdraw";
              Method := "POST"; Rel := "withdraw" |}
    else None.
Proof.
  unfold addHATEOASLinks. cbn [Links].
  destruct (F64.gtb (Balance acc) F64.zero).
  - apply lookup_insert_eq.
  - repeat (rewrite lookup_insert_ne by discriminate). apply lookup_empty.
Qed.

Lemma links_dom acc base :
  dom (Links (addHATEOASLinks acc base))
  = if F64.gtb (Balance acc) F64.zero
    then ({["self"; "deposit"; "withdraw"]} : gset string)
    else {["self"; "deposit"]}.
Proof.
  unfold addHATEOASLinks. cbn [Links].
  destruct (F64.gtb (Balance acc) F64.zero);
    rewrite !dom_insert_L, dom_empty_L; set_solver.
Qed.

End Handlers.

(** ** What one request can do *)

Module Outcome.
Import strings Bank StringsFacts Routing Handlers.

(** Either the store is left as it was and the body holds at most the
    representation of a stored account, or a POST changed the balance of
    the account named in the path and answered 200 with the representation
    of the updated account. *)
Local Abbreviation outcome accts r res :=
  ((res.1 = accts
    /\ (representations res.2 = []
        \/ exists acc, representations res.2
                       = [addHATEOASLinks acc ("http://" ++ Host r)]))
   \/ (exists acc b,
         ReqMethod r = "POST"
         /\ accts !! nth 2 (Split (Path r) "/") "" = Some acc
         /\ res.1 = <[nth 2 (Split (Path r) "/") "" := withBalance acc b]> accts
         /\ status res.2 = StatusOK
         /\ (representations res.2 = []
             \/ representations res.2
                = [addHATEOASLinks (withBalance acc b)
                     ("http://" ++ Host r)]))).

Ltac branch :=
  repeat match goal with
    | |- context [if ?c then _ else _] => destruct c eqn:?
    | |- context [match ?o with Some _ => _ | None => _ end] =>
        destruct o eqn:?
    end.

Ltac sent :=
  cbn [fst snd]; rewrite ?representations_account, ?status_Encode;
  cbn [Balance addHATEOASLinks withBalance];
  match goal with
  | |- context [F64.is_finite ?b] => destruct (F64.is_finite b)
  | _ => idtac
  end.

Ltac unchanged :=
  left; split; [reflexivity |]; sent;
  (left; reflexivity) || (right; eexists; reflexivity).

Lemma method_is (m expected : string) :
  negb (String.eqb m expected) = false -> m = expected.
Proof.
  intros H. apply negb_false_iff in H. now apply String.eqb_eq.
Qed.

Lemma getAccount_outcome accts r : outcome accts r (getAccount accts r).
Proof. unfold getAccount. cbv zeta. branch; unchanged. Qed.

Lemma deposit_outcome accts r : outcome accts r (deposit accts r).
Proof.
  unfold deposit. cbv zeta. branch; try unchanged.
  right. do 2 eexists.
  split; [apply method_is; assumption |].
  do 2 (split; [reflexivity |]). sent;
    (split; [reflexivity |]); (left; reflexivity) || (right; reflexivity).
Qed.

Lemma withdraw_outcome accts r : outcome accts r (withdraw accts r).
Proof.
  unfold withdraw. cbv zeta. branch; try unchanged.
  right. do 2 eexists.
  split; [apply method_is; assumption |].
  do 2 (split; [reflexivity |]). sent;
    (split; [reflexivity |]); (left; reflexivity) || (right; reflexivity).
Qed.

Lemma serve_outcome accts r : outcome accts r (serve accts r).
Proof.
  unfold serve. cbv zeta.
  destruct (HasSuffix (Path r) "/deposit"); [apply deposit_outcome |].
  destruct (HasSuffix (Path r) "/withdraw");
    [apply withdraw_outcome | apply getAccount_outcome].
Qed.

Lemma handler_outcome (h : Handler) accts r :
  h ∈ [getAccount; deposit; withdraw; serve] -> outcome accts r (h accts r).
Proof.
  intros Hh. repeat (apply elem_of_cons in Hh as [-> | Hh]).
  - apply getAccount_outcome.
  - apply deposit_outcome.
  - apply withdraw_outcome.
  - apply serve_outcome.
  - inversion Hh.
Qed.

End Outcome.

(** ** The wire contract of the bank API *)

Module BankSpec.
Import strings Bank StringsFacts Routing Handlers Outcome.

(** C1. Every account representation a handler writes carries a [self]
    link with method GET and a [deposit] link with method POST; it carries
    a [withdraw] link exactly when its balance is greater than zero, and
    that link has method POST. *)
Theorem links_invariant (h : Handler) accts r (a : Account) :
  h ∈ [getAccount; deposit; withdraw; serve] ->
  a ∈ representations (h accts r).2 ->
  (exists l, Links a !! "self" = Some l /\ Method l = "GET")
  /\ (exists l, Links a !! "deposit" = Some l /\ Method l = "POST")
  /\ (is_Some (Links a !! "withdraw") <-> F64.gtb (Balance a) F64.zero = true)
  /\ (forall l, Links a !! "withdraw" = Some l -> Method l = "POST").
Proof.
  intros Hh Ha.
  assert (exists acc base, a = addHATEOASLinks acc base) as (acc & base & ->).
  { destruct (handler_outcome h accts r Hh)
      as [[_ [Hr | [acc Hr]]] | (acc & b & _ & _ & _ & _ & [Hr | Hr])];
      rewrite Hr in Ha.
    - inversion Ha.
    - apply list_elem_of_singleton in Ha. eauto.
    - inversion Ha.
    - apply list_elem_of_singleton in Ha. eauto. }
  rewrite links_self, links_deposit, links_withdraw.
  change (Balance (addHATEOASLinks acc base)) with (Balance acc).
  split; [eexists; split; reflexivity |].
  split; [eexists; split; reflexivity |].
  destruct (F64.gtb (Balance acc) F64.zero); split.
  - split; [reflexivity | intros _; eexists; reflexivity].
  - intros l [= <-]. reflexivity.
  - split; [intros [l Hl]; discriminate Hl | discriminate].
  - discriminate.
Qed.

(** C2. A POST to [/accounts/{id}/withdraw] for a stored account is
    answered 403 exactly when the stored balance is at most zero, and a
    403 leaves the account, and the whole store, as it was. *)
Theorem withdraw_forbidden accts host id body acc :
  segment id = true ->
  accts !! id = Some acc ->
  let res := serve accts (POST host id "withdraw" body) in
  (status res.2 = StatusForbidden <-> F64.leb (Balance acc) F64.zero = true)
  /\ (status res.2 = StatusForbidden ->
      res.1 !! id = Some acc /\ res.1 = accts).
Proof.
  intros Hseg Hacc res. subst res.
  rewrite serve_withdraw, (withdraw_POST _ _ _ _ acc) by assumption.
  destruct (F64.leb (Balance acc) F64.zero).
  - cbn [fst snd]. repeat split; auto.
  - destruct body as [t |]; [destruct (F64.leb (Amount t) F64.zero) |];
      cbn [fst snd]; (split; [split |]); intros H;
      (discriminate H || absurd_status H).
Qed.

(** The store after a deposit of [math.MaxFloat64] into [acc-123], and
    after a second one: the balance is [MaxFloat64], then +Inf. *)
Lemma deposit_max_twice :
  let max := POST "localhost:9001" "acc-123" "deposit"
               (Some {| Amount := F64.MaxFloat64 |}) in
  (Balance <$> run accounts [max] !! "acc-123") = Some F64.MaxFloat64
  /\ (Balance <$> run accounts [max; max] !! "acc-123")
     = Some (S754_infinity false).
Proof. vm_compute. split; reflexivity. Qed.





(** C5. For a stored account, a deposit whose body is malformed or whose
    amount is at most zero is answered 400 and changes nothing in the
    store; so is such a withdrawal when the balance is greater than
    zero. *)
Theorem invalid_amount_rejected accts host id body acc :
  segment id = true ->
  accts !! id = Some acc ->
  match body with
  | None => True
  | Some t => F64.leb (Amount t) F64.zero = true
  end ->
  let dep := serve accts (POST host id "deposit" body) in
  let wd := serve accts (POST host id "withdraw" body) in
  (status dep.2 = StatusBadRequest
   /\ dep.1 !! id = Some acc /\ dep.1 = accts)
  /\ (F64.gtb (Balance acc) F64.zero = true ->
      status wd.2 = StatusBadRequest
      /\ wd.1 !! id = Some acc /\ wd.1 = accts).
Proof.
  intros Hseg Hacc Hbody dep wd. subst dep wd.
  rewrite serve_deposit, (deposit_POST _ _ _ _ acc) by assumption.
  rewrite serve_withdraw, (withdraw_POST _ _ _ _ acc) by assumption.
  split.
  - destruct body as [t |]; [rewrite Hbody |]; cbn [fst snd];
      repeat split; auto.
  - intros Hbal. rewrite (F64Order.gt_zero_not_le _ Hbal).
    destruct body as [t |]; [rewrite Hbody |]; cbn [fst snd];
      repeat split; auto.
Qed.

(** A GET whose path ends in neither action name reaches [getAccount]. *)
Lemma serve_GET accts host id :
  HasSuffix ("/accounts/" ++ id) "/deposit" = false ->
  HasSuffix ("/accounts/" ++ id) "/withdraw" = false ->
  serve accts (GET host id)
  = match accts !! id with
    | None => (accts, WriteHeader StatusNotFound newResponse)
    | Some acc =>
        (accts, Encode (JAccount (addHATEOASLinks acc ("http://" ++ host)))
                  (SetContentType "application/json" newResponse))
    end.
Proof.
  intros Hd Hw. rewrite <- getAccount_GET.
  unfold serve. change (Path (GET host id)) with ("/accounts/" ++ id).
  rewrite Hd, Hw. reflexivity.
Qed.


Example get_deposit_is_405 :
  accounts !! "deposit" = None
  /\ status (serve accounts (GET "localhost:9001" "deposit")).2
     = StatusMethodNotAllowed.
Proof. split; reflexivity. Qed.




(** C7. [withdraw] does not compare the amount with the balance: with a
    balance greater than zero and an amount greater than the balance, the
    request is answered 200 with the updated representation, the stored
    balance becomes the negative [balance - amount], and the
    representation has no [withdraw] link.  ([F64.valid] says that the two
    data are values of the binary64 format, as every Go [float64] is; the
    difference of two distinct values never rounds to zero.  An amount
    decoded from JSON is finite, and then so is the difference; were the
    amount infinite, the encoder would refuse the balance and the body
    would be empty.) *)
Theorem overdraft accts host id amount acc :
  segment id = true ->
  accts !! id = Some acc ->
  F64.valid (Balance acc) = true ->
  F64.valid amount = true ->
  F64.gtb (Balance acc) F64.zero = true ->
  F64.gtb amount (Balance acc) = true ->
  let res := serve accts (POST host id "withdraw" (Some {| Amount := amount |})) in
  let balance' := F64.sub (Balance acc) amount in
  status res.2 = StatusOK
  /\ res.1 !! id = Some (withBalance acc balance')
  /\ F64.ltb balance' F64.zero = true
  /\ (F64.is_finite amount = true ->
      exists rep,
        Written res.2 = [JAccount rep]
        /\ Balance rep = balance'
        /\ Links rep !! "withdraw" = None
        /\ dom (Links rep) = {["self"; "deposit"]})
  /\ (F64.is_finite amount = false -> Written res.2 = []).
Proof.
  intros Hseg Hacc Vb Va Hbal Hgt res balance'.
  pose proof (F64Order.gt_above_positive _ _ Hbal Hgt) as Hpos.
  destruct (F64Order.sub_lt_negative _ _ Vb Va Hbal Hgt) as [Hneg Hnot].
  fold balance' in Hneg, Hnot.
  subst res.
  rewrite serve_withdraw, (withdraw_accepted _ _ _ _ acc) by assumption.
  fold balance'. cbn [fst snd]. rewrite status_account, Written_account.
  cbn [Balance addHATEOASLinks withBalance].
  split; [reflexivity |].
  split; [apply lookup_insert_eq |].
  split; [exact Hneg |].
  split.
  - intros Fa.
    pose proof (F64Monotone.sub_lt_finite _ _ Vb Va Fa Hbal Hgt) as Hfin.
    fold balance' in Hfin. rewrite Hfin.
    eexists. split; [reflexivity |]. split; [reflexivity |].
    rewrite links_withdraw, links_dom. cbn [Balance withBalance].
    rewrite Hnot. split; reflexivity.
  - intros Fa.
    pose proof (F64Monotone.sub_infinite _ _ Hgt Fa) as Hinf.
    fold balance' in Hinf. rewrite Hinf. reflexivity.
Qed.

(** C8. A handler never adds or removes a key of [accounts]; of a stored
    account it can only change [Balance], and only for the account named
    in the path of a POST answered 200; a GET, and [getAccount] on any
    request, leave the store as it was: the links go to a copy. *)
Theorem frame (h : Handler) accts r :
  h ∈ [getAccount; deposit; withdraw; serve] ->
  let res := h accts r in
  dom res.1 = dom accts
  /\ (forall id acc,
        accts !! id = Some acc ->
        exists acc',
          res.1 !! id = Some acc'
          /\ AccountID acc' = AccountID acc
          /\ AccountHolder acc' = AccountHolder acc
          /\ Currency acc' = Currency acc
          /\ Links acc' = Links acc
          /\ (Balance acc' <> Balance acc ->
              ReqMethod r = "POST"
              /\ id = nth 2 (Split (Path r) "/") ""
              /\ status res.2 = StatusOK))
  /\ (ReqMethod r = "GET" -> res.1 = accts)
  /\ (getAccount accts r).1 = accts.
Proof.
  intros Hh res. subst res.
  assert (Hget : (getAccount accts r).1 = accts).
  { destruct (getAccount_outcome accts r)
      as [[Hs _] | (acc0 & b & Hm & _)]; [exact Hs |].
    unfold getAccount. cbv zeta.
    destruct (negb (ReqMethod r =? "GET")%string) eqn:Hg; [reflexivity |].
    apply method_is in Hg. congruence. }
  destruct (handler_outcome h accts r Hh)
    as [[Hs _] | (acc0 & b & Hm & Hacc0 & Hs & Hst & _)]; rewrite Hs.
  - split; [reflexivity |]. split; [| split; [reflexivity | exact Hget]].
    intros id acc Hacc. exists acc. split; [assumption |].
    do 4 (split; [reflexivity |]). intros Hne. congruence.
  - split; [apply dom_insert_lookup_L; eauto |].
    split; [| split; [intros Hg; congruence | exact Hget]].
    intros id acc Hacc.
    destruct (decide (nth 2 (Split (Path r) "/") "" = id)) as [<- | Hne].
    + rewrite lookup_insert_eq. eexists. split; [reflexivity |].
      assert (acc = acc0) as -> by congruence.
      do 4 (split; [reflexivity |]). intros _.
      split; [assumption |]. split; [reflexivity | assumption].
    + rewrite lookup_insert_ne by assumption.
      exists acc. split; [assumption |].
      do 4 (split; [reflexivity |]). intros Hb. congruence.
Qed.

Lemma accounts_acc123 :
  accounts !! "acc-123"
  = Some {| AccountID := "acc-123"; AccountHolder := "John Doe";
            Balance := F64.of_dyadic 5003 (-2); Currency := "USD";
            Links := ∅ |}.
Proof. unfold accounts. apply lookup_insert_eq. Qed.

Lemma accounts_acc456 :
  accounts !! "acc-456"
  = Some {| AccountID := "acc-456"; AccountHolder := "Jane Smith";
            Balance := F64.of_dyadic (-601) (-2); Currency := "USD";
            Links := ∅ |}.
Proof.
  unfold accounts. rewrite lookup_insert_ne by discriminate.
  apply lookup_insert_eq.
Qed.

(** C9. Initially [acc-123] holds 1250.75, that is 5003 * 2^40 * 2^-42,
    and a GET of it on the initial store is answered with a representation
    whose links are exactly [self], [deposit] and [withdraw]. *)
Theorem initial_links host :
  (Balance <$> accounts !! "acc-123") = Some (F64.of_dyadic 5003 (-2))
  /\ F64.of_dyadic 5003 (-2) = S754_finite false 5500856673763328 (-42)
  /\ (5500856673763328 = 5003 * 2 ^ 40)%Z
  /\ let res := serve accounts (GET host "acc-123") in
     status res.2 = StatusOK
     /\ exists rep,
          Written res.2 = [JAccount rep]
          /\ Balance rep = F64.of_dyadic 5003 (-2)
          /\ dom (Links rep) = {["self"; "deposit"; "withdraw"]}.
Proof.
  split; [rewrite accounts_acc123; reflexivity |].
  split; [reflexivity |]. split; [reflexivity |].
  intros res. subst res.
  rewrite serve_GET by reflexivity. rewrite accounts_acc123. cbn [fst snd].
  split; [reflexivity |]. eexists. split; [reflexivity |].
  split; [reflexivity |]. rewrite links_dom. reflexivity.
Qed.

(** *** The theorems at work on the initial store *)

Example initial_balances_valid :
  map_Forall (fun _ acc => F64.valid (Balance acc) = true) accounts.
Proof.
  unfold accounts. repeat (apply map_Forall_insert_2; [reflexivity |]).
  apply map_Forall_empty.
Qed.

(** Withdrawing the whole 1250.75 leaves 0 and removes the [withdraw]
    link; a deposit of 100 brings it back. *)
Example withdraw_all_then_deposit :
  let all := Some {| Amount := F64.of_dyadic 5003 (-2) |} in
  let hundred := Some {| Amount := F64.of_dyadic 100 0 |} in
  let s1 := (serve accounts (POST "h" "acc-123" "withdraw" all)).1 in
  let s2 := (serve s1 (POST "h" "acc-123" "deposit" hundred)).1 in
  (dom ∘ Links <$> representations (serve s1 (GET "h" "acc-123")).2)
  = [{["self"; "deposit"]}]
  /\ status (serve s1 (POST "h" "acc-123" "withdraw" hundred)).2
     = StatusForbidden
  /\ (dom ∘ Links <$> representations (serve s2 (GET "h" "acc-123")).2)
     = [{["self"; "deposit"; "withdraw"]}].
Proof.
  vm_compute. repeat split.
Qed.

Lemma links_invariant_witness :
  let acc := {| AccountID := "acc-123"; AccountHolder := "John Doe";
                Balance := F64.of_dyadic 5003 (-2); Currency := "USD";
                Links := ∅ |} in
  let a := addHATEOASLinks acc "http://localhost:9001" in
  a ∈ representations (getAccount accounts (GET "localhost:9001" "acc-123")).2
  /\ (exists l, Links a !! "self" = Some l /\ Method l = "GET")
  /\ (exists l, Links a !! "deposit" = Some l /\ Method l = "POST")
  /\ (is_Some (Links a !! "withdraw") <-> F64.gtb (Balance a) F64.zero = true)
  /\ (forall l, Links a !! "withdraw" = Some l -> Method l = "POST").
Proof.
  intros acc a.
  assert (Ha : a ∈ representations
                 (getAccount accounts (GET "localhost:9001" "acc-123")).2).
  { rewrite getAccount_GET, accounts_acc123. apply list_elem_of_here. }
  split; [exact Ha |].
  apply (links_invariant getAccount accounts
           (GET "localhost:9001" "acc-123") a);
    [apply list_elem_of_here | exact Ha].
Defined.

Lemma withdraw_forbidden_witness :
  let acc := {| AccountID := "acc-456"; AccountHolder := "Jane Smith";
                Balance := F64.of_dyadic (-601) (-2); Currency := "USD";
                Links := ∅ |} in
  let res := serve accounts (POST "localhost:9001" "acc-456" "withdraw" None) in
  segment "acc-456" = true
  /\ accounts !! "acc-456" = Some acc
  /\ (status res.2 = StatusForbidden <-> F64.leb (Balance acc) F64.zero = true)
  /\ (status res.2 = StatusForbidden ->
      res.1 !! "acc-456" = Some acc /\ res.1 = accounts).
Proof.
  intros acc res.
  split; [reflexivity |]. split; [exact accounts_acc456 |].
  apply (withdraw_forbidden accounts "localhost:9001" "acc-456" None acc);
    [reflexivity | exact accounts_acc456].
Defined.



Lemma invalid_amount_rejected_witness :
  let acc := {| AccountID := "acc-123"; AccountHolder := "John Doe";
                Balance := F64.of_dyadic 5003 (-2); Currency := "USD";
                Links := ∅ |} in
  let body := Some {| Amount := F64.of_dyadic (-5) 0 |} in
  let dep := serve accounts (POST "localhost:9001" "acc-123" "deposit" body) in
  let wd := serve accounts (POST "localhost:9001" "acc-123" "withdraw" body) in
  F64.leb (F64.of_dyadic (-5) 0) F64.zero = true
  /\ (status dep.2 = StatusBadRequest
      /\ dep.1 !! "acc-123" = Some acc /\ dep.1 = accounts)
  /\ (F64.gtb (Balance acc) F64.zero = true ->
      status wd.2 = StatusBadRequest
      /\ wd.1 !! "acc-123" = Some acc /\ wd.1 = accounts).
Proof.
  intros acc body dep wd.
  split; [reflexivity |].
  apply (invalid_amount_rejected accounts "localhost:9001" "acc-123" body acc);
    [reflexivity | exact accounts_acc123 | reflexivity].
Defined.


Lemma overdraft_witness :
  let acc := {| AccountID := "acc-123"; AccountHolder := "John Doe";
                Balance := F64.of_dyadic 5003 (-2); Currency := "USD";
                Links := ∅ |} in
  let amount := F64.of_dyadic 2000 0 in
  let res := serve accounts
               (POST "localhost:9001" "acc-123" "withdraw"
                  (Some {| Amount := amount |})) in
  F64.valid (Balance acc) = true /\ F64.valid amount = true
  /\ F64.gtb amount (Balance acc) = true
  /\ F64.sub (Balance acc) amount = F64.of_dyadic (-2997) (-2)
  /\ status res.2 = StatusOK
  /\ res.1 !! "acc-123" = Some (withBalance acc (F64.sub (Balance acc) amount))
  /\ F64.ltb (F64.sub (Balance acc) amount) F64.zero = true
  /\ exists rep, Written res.2 = [JAccount rep]
                 /\ Balance rep = F64.of_dyadic (-2997) (-2)
                 /\ Links rep !! "withdraw" = None.
Proof.
  intros acc amount res.
  split; [reflexivity |]. split; [reflexivity |]. split; [reflexivity |].
  split; [reflexivity |].
  destruct (overdraft accounts "localhost:9001" "acc-123" amount acc)
    as (Hst & Hs & Hneg & Hfin & _);
    [reflexivity | exact accounts_acc123 | reflexivity | reflexivity
    | reflexivity | reflexivity |].
  split; [exact Hst |]. split; [exact Hs |]. split; [exact Hneg |].
  destruct (Hfin eq_refl) as (rep & Hw & Hb & Hl & _).
  exists rep. split; [exact Hw |]. split; [exact Hb | exact Hl].
Defined.

Lemma frame_witness :
  let r := POST "localhost:9001" "acc-456" "deposit"
             (Some {| Amount := F64.of_dyadic 100 0 |}) in
  let res := serve accounts r in
  dom res.1 = dom accounts
  /\ (ReqMethod r = "GET" -> res.1 = accounts)
  /\ (getAccount accounts r).1 = accounts.
Proof.
  intros r res.
  destruct (frame serve accounts r) as (Hdom & _ & Hget & Hcopy).
  - apply list_elem_of_further, list_elem_of_further, list_elem_of_further,
      list_elem_of_here.
  - split; [exact Hdom |]. split; [exact Hget | exact Hcopy].
Defined.

End BankSpec.

(** ** The discovery engine: a poll that finds nothing new *)

Module DiscoverySpec.
Import Discovery.

(** The mapper depends on the action map as a mapping only. *)
Lemma mapper_capabilities (r : Representation) :
  capabilities (mapper r)
  = capabilityOf <$> (list_to_map (actionMap r) : gmap string ActionDescriptor).
Proof.
  unfold mapper. cbn [capabilities].
  induction (actionMap r) as [| [k d] l IH]; cbn [foldr list_to_map].
  - symmetry. apply fmap_empty.
  - rewrite IH. symmetry. apply fmap_insert.
Qed.

(** Reordering the entries of an action map with distinct relation names
    gives the same action map. *)
Lemma sameActionMap_permutation (r1 r2 : Representation) :
  NoDup (actionMap r1).*1 ->
  actionMap r1 ≡ₚ actionMap r2 ->
  sameActionMap r1 r2.
Proof. intros Hnd Hp. unfold sameActionMap. now apply list_to_map_proper. Qed.

(** After a successful poll the published catalog has the capabilities of
    the fetched representation. *)
Lemma poll_installs (e : Engine) (r : Representation) (now : Z) :
  capabilities (current (poll e (Fetched r) now).1) = capabilities (mapper r).
Proof.
  unfold poll, catalogEqual.
  destruct (bool_decide_reflect
              (capabilities (mapper r) = capabilities (current e)))
    as [Heq | Hne]; cbn [fst]; [symmetry; exact Heq | reflexivity].
Qed.

(** C10. When two consecutive polls fetch representations with the same
    action map, whatever the order of its entries, the second poll
    publishes no notification, leaves every subscriber queue as it was and
    does not change the version of the published catalog. *)
Theorem stable_poll (e : Engine) (r1 r2 : Representation) (t1 t2 : Z) :
  sameActionMap r1 r2 ->
  let first := poll e (Fetched r1) t1 in
  let second := poll first.1 (Fetched r2) t2 in
  second.2 = []
  /\ queues second.1 = queues first.1
  /\ version (current second.1) = version (current first.1)
  /\ current second.1 = current first.1.
Proof.
  intros Hsame first second.
  assert (Heq : catalogEqual (mapper r2) (current first.1) = true).
  { unfold catalogEqual. apply bool_decide_eq_true.
    unfold first. rewrite poll_installs, !mapper_capabilities.
    unfold sameActionMap in Hsame. now rewrite Hsame. }
  assert (Hs : second = (first.1, [])).
  { unfold second, poll. rewrite Heq. reflexivity. }
  rewrite Hs. repeat split.
Qed.

Lemma stable_poll_witness :
  let self := {| href := "http://localhost:9001/accounts/acc-456";
                 method := Some "GET"; rel := "self" |} in
  let dep := {| href := "http://localhost:9001/accounts/acc-456/deposit";
                method := Some "POST"; rel := "deposit" |} in
  let r1 := {| identifier := "acc-456"; balance := F64.of_dyadic (-601) (-2);
               actionMap := [("self", self); ("deposit", dep)] |} in
  let r2 := {| identifier := "acc-456"; balance := F64.of_dyadic (-601) (-2);
               actionMap := [("deposit", dep); ("self", self)] |} in
  let e := (subscribe (initial 4)).1 in
  let first := poll e (Fetched r1) 10 in
  let second := poll first.1 (Fetched r2) 20 in
  sameActionMap r1 r2
  /\ length first.2 = 1%nat
  /\ version (current first.1) = 1%nat
  /\ second.2 = []
  /\ queues second.1 = queues first.1
  /\ version (current second.1) = 1%nat.
Proof.
  intros self dep r1 r2 e first second.
  assert (Hsame : sameActionMap r1 r2).
  { apply sameActionMap_permutation.
    - cbn. apply NoDup_cons_2; [| apply NoDup_singleton].
      intros Hin. apply list_elem_of_singleton in Hin. discriminate Hin.
    - cbn [actionMap r1 r2]. apply Permutation_swap. }
  split; [exact Hsame |].
  split; [reflexivity |]. split; [reflexivity |].
  destruct (stable_poll e r1 r2 10 20 Hsame) as (Hn & Hq & Hv & _).
  split; [exact Hn |]. split; [exact Hq |].
  fold first second in Hv. rewrite Hv. reflexivity.
Defined.

End DiscoverySpec.

(** * Further properties *)



(** ** The multi-account server: errors, routing and edge cases *)

Module BankExtra.
Import strings Bank StringsFacts Routing Handlers Outcome.

Ltac settle :=
  cbn [fst snd];
  repeat match goal with
    | |- _ /\ _ => split
    | |- _ <-> _ => split
    | |- _ -> _ => intro
    end;
  try reflexivity; try contradiction; try congruence;
  try match goal with
    | H : status _ = _ |- _ => absurd_status H
    end.

Lemma getAccount_405 accts r :
  let res := getAccount accts r in
  (status res.2 = StatusMethodNotAllowed <-> ReqMethod r <> "GET")
  /\ (status res.2 = StatusMethodNotAllowed ->
      res.1 = accts /\ Written res.2 = []).
Proof.
  unfold getAccount. cbv zeta.
  destruct (String.eqb_spec (ReqMethod r) "GET"); cbn [negb]; branch; settle.
Qed.

Lemma deposit_405 accts r :
  let res := deposit accts r in
  (status res.2 = StatusMethodNotAllowed <-> ReqMethod r <> "POST")
  /\ (status res.2 = StatusMethodNotAllowed ->
      res.1 = accts /\ Written res.2 = []).
Proof.
  unfold deposit. cbv zeta.
  destruct (String.eqb_spec (ReqMethod r) "POST"); cbn [negb]; branch; settle.
Qed.

Lemma withdraw_405 accts r :
  let res := withdraw accts r in
  (status res.2 = StatusMethodNotAllowed <-> ReqMethod r <> "POST")
  /\ (status res.2 = StatusMethodNotAllowed ->
      res.1 = accts /\ Written res.2 = []).
Proof.
  unfold withdraw. cbv zeta.
  destruct (String.eqb_spec (ReqMethod r) "POST"); cbn [negb]; branch; settle.
Qed.

(** X1. The dispatcher answers 405 exactly when the method does not fit
    the route chosen by the path suffix (POST for paths ending in
    [/deposit] or [/withdraw], GET for all others); a 405 has an empty body
    and leaves the store as it was. *)
Theorem method_not_allowed accts r :
  let res := serve accts r in
  let action :=
    HasSuffix (Path r) "/deposit" || HasSuffix (Path r) "/withdraw" in
  (status res.2 = StatusMethodNotAllowed
   <-> ReqMethod r <> (if action then "POST" else "GET"))
  /\ (status res.2 = StatusMethodNotAllowed ->
      res.1 = accts /\ Written res.2 = []).
Proof.
  unfold serve. cbv zeta.
  destruct (HasSuffix (Path r) "/deposit"); cbn [orb];
    [apply deposit_405 |].
  destruct (HasSuffix (Path r) "/withdraw");
    [apply withdraw_405 | apply getAccount_405].
Qed.

Lemma method_not_allowed_witness :
  let r := {| ReqMethod := "GET"; Path := "/accounts/acc-123/deposit";
              Host := "localhost:9001"; Body := None |} in
  ReqMethod r <> "POST"
  /\ status (serve accounts r).2 = StatusMethodNotAllowed
  /\ (serve accounts r).1 = accounts /\ Written (serve accounts r).2 = [].
Proof.
  intros r.
  assert (Hm : ReqMethod r <> "POST") by discriminate.
  destruct (method_not_allowed accounts r) as [Hiff Hframe].
  pose proof (proj2 Hiff Hm) as Hst.
  split; [exact Hm |]. split; [exact Hst |]. exact (Hframe Hst).
Defined.

Lemma post_unknown accts host id action body (h : Handler) :
  (h = deposit \/ h = withdraw) ->
  segment id = true -> accts !! id = None ->
  h accts (POST host id action body)
  = (accts, WriteHeader StatusNotFound newResponse).
Proof.
  intros Hh Hseg Hnone.
  destruct (POST_parts host id action body Hseg) as [rest Hp].
  destruct Hh as [-> | ->]; [unfold deposit | unfold withdraw];
    rewrite Hp;
    cbn [POST ReqMethod Host Body length nth Nat.ltb Nat.leb String.eqb
         Ascii.eqb Bool.eqb negb];
    rewrite Hnone; reflexivity.
Qed.

(** X2. A POST to [/accounts/{id}/deposit] or [/accounts/{id}/withdraw]
    for an id that is not stored is answered 404 with an empty body,
    whatever its body, and leaves the store as it was: the lookup comes
    before the decoding of the body and before the balance check. *)
Theorem post_unknown_account accts host id body :
  segment id = true ->
  accts !! id = None ->
  let dep := serve accts (POST host id "deposit" body) in
  let wd := serve accts (POST host id "withdraw" body) in
  (status dep.2 = StatusNotFound /\ Written dep.2 = [] /\ dep.1 = accts)
  /\ (status wd.2 = StatusNotFound /\ Written wd.2 = [] /\ wd.1 = accts).
Proof.
  intros Hseg Hnone dep wd. subst dep wd.
  rewrite serve_deposit, serve_withdraw.
  rewrite !post_unknown by auto. repeat split.
Qed.

Lemma Split_nonempty (s : string) : (1 <= length (Split s "/"))%nat.
Proof.
  induction s as [| c s IH]; cbn [Split]; [cbn; lia |].
  destruct (Ascii.eqb c "/"); [cbn; lia |].
  destruct (Split s "/"); cbn in *; lia.
Qed.

Lemma prefix_append (pre s : string) :
  HasPrefix s pre = true -> exists rest, s = pre ++ rest.
Proof.
  unfold HasPrefix. revert s.
  induction pre as [| c pre IH]; intros s H; [exists s; reflexivity |].
  destruct s as [| d s]; [discriminate H |]. cbn [String.prefix] in H.
  destruct (ascii_dec c d) as [-> | _]; [| discriminate H].
  destruct (IH s H) as [rest ->]. exists rest. reflexivity.
Qed.

(** Under [/accounts/] the path always has the three parts the handlers
    index. *)
Lemma accounts_path_parts (rest : string) :
  (length (Split ("/accounts/" ++ rest) "/") <? 3)%nat = false.
Proof.
  change ("/accounts/" ++ rest)
    with (String "/" ("accounts" ++ String "/" rest)).
  cbn [Split]. rewrite Ascii.eqb_refl.
  rewrite (Split_segment "accounts") by reflexivity.
  pose proof (Split_nonempty rest). apply Nat.ltb_ge. cbn [length]. lia.
Qed.

(** X3. For a path under [/accounts/] the length check on the path never
    fires: a 400 always comes from the body, which failed to decode or
    holds an amount that is not greater than zero, and it leaves the store
    as it was. *)
Theorem bad_request_is_about_body accts r :
  HasPrefix (Path r) "/accounts/" = true ->
  let res := serve accts r in
  status res.2 = StatusBadRequest ->
  match Body r with
  | None => True
  | Some t => F64.leb (Amount t) F64.zero = true
  end
  /\ ReqMethod r = "POST" /\ res.1 = accts.
Proof.
  intros Hpre res. subst res.
  destruct (prefix_append _ _ Hpre) as [rest Hpath].
  pose proof (accounts_path_parts rest) as Hlen. rewrite <- Hpath in Hlen.
  unfold serve, deposit, withdraw, getAccount. cbv zeta. rewrite Hlen.
  destruct (String.eqb_spec (ReqMethod r) "POST");
    destruct (String.eqb_spec (ReqMethod r) "GET");
    cbn [negb]; branch; settle.
Qed.

Lemma bad_request_is_about_body_witness :
  let r := POST "localhost:9001" "acc-123" "deposit" None in
  HasPrefix (Path r) "/accounts/" = true
  /\ status (serve accounts r).2 = StatusBadRequest
  /\ ReqMethod r = "POST" /\ (serve accounts r).1 = accounts.
Proof.
  intros r.
  assert (Hpre : HasPrefix (Path r) "/accounts/" = true) by reflexivity.
  assert (Hst : status (serve accounts r).2 = StatusBadRequest)
    by reflexivity.
  split; [exact Hpre |]. split; [exact Hst |].
  exact (proj2 (bad_request_is_about_body accounts r Hpre Hst)).
Defined.

Lemma post_unknown_account_witness :
  let dep := serve accounts (POST "localhost:9001" "acc-999" "deposit" None) in
  segment "acc-999" = true /\ accounts !! "acc-999" = None
  /\ status dep.2 = StatusNotFound /\ Written dep.2 = [] /\ dep.1 = accounts.
Proof.
  intros dep.
  assert (Hnone : accounts !! "acc-999" = None) by reflexivity.
  split; [reflexivity |]. split; [exact Hnone |].
  exact (proj1 (post_unknown_account accounts "localhost:9001" "acc-999" None
                  eq_refl Hnone)).
Defined.

Ltac shape :=
  cbn [fst snd];
  first
    [ rewrite status_account, ContentType_Encode, Written_account;
      cbn [Balance addHATEOASLinks withBalance];
      let Hfin := fresh "Hfin" in
      match goal with
      | |- context [F64.is_finite ?b] => destruct (F64.is_finite b) eqn:Hfin
      end;
      [ left; split; [reflexivity |]; split; [reflexivity |];
        eexists; split; [reflexivity | exact Hfin]
      | right; left; split; [reflexivity |]; split; [reflexivity |];
        split; [reflexivity |]; do 2 eexists;
        split; [first [apply lookup_insert_eq | eassumption] | exact Hfin] ]
    | right; right; split;
      [ repeat first [apply list_elem_of_here | apply list_elem_of_further]
      | split; [reflexivity |];
        first [left; reflexivity | right; eexists; reflexivity] ] ].

Local Abbreviation wellShaped res :=
  ((status res.2 = StatusOK
    /\ ContentType res.2 = Some "application/json"
    /\ exists a, Written res.2 = [JAccount a]
                 /\ F64.is_finite (Balance a) = true)
   \/ (status res.2 = StatusOK
       /\ ContentType res.2 = Some "application/json"
       /\ Written res.2 = []
       /\ exists id acc, res.1 !! id = Some acc
                         /\ F64.is_finite (Balance acc) = false)
   \/ (status res.2 ∈ [StatusBadRequest; StatusForbidden; StatusNotFound;
                       StatusMethodNotAllowed]
       /\ ContentType res.2 = None
       /\ (Written res.2 = [] \/ exists msg, Written res.2 = [JError msg]))).

Lemma getAccount_shape accts r : wellShaped (getAccount accts r).
Proof. unfold getAccount. cbv zeta. branch; shape. Qed.

Lemma deposit_shape accts r : wellShaped (deposit accts r).
Proof. unfold deposit. cbv zeta. branch; shape. Qed.

Lemma withdraw_shape accts r : wellShaped (withdraw accts r).
Proof. unfold withdraw. cbv zeta. branch; shape. Qed.

(** X4. Every response of a handler is one of three: a 200 with content
    type [application/json] and exactly one account representation, of
    finite balance, as body; a 200 with content type [application/json]
    and an empty body, which happens only when the store then holds an
    account whose balance is not finite (the encoder refused it); or a
    400, 403, 404 or 405 without a content type whose body is empty or
    one error message. *)
Theorem response_shape (h : Handler) accts r :
  h ∈ [getAccount; deposit; withdraw; serve] ->
  let res := h accts r in
  (status res.2 = StatusOK
   /\ ContentType res.2 = Some "application/json"
   /\ exists a, Written res.2 = [JAccount a]
                /\ F64.is_finite (Balance a) = true)
  \/ (status res.2 = StatusOK
      /\ ContentType res.2 = Some "application/json"
      /\ Written res.2 = []
      /\ exists id acc, res.1 !! id = Some acc
                        /\ F64.is_finite (Balance acc) = false)
  \/ (status res.2 ∈ [StatusBadRequest; StatusForbidden; StatusNotFound;
                      StatusMethodNotAllowed]
      /\ ContentType res.2 = None
      /\ (Written res.2 = [] \/ exists msg, Written res.2 = [JError msg])).
Proof.
  intros Hh. repeat (apply elem_of_cons in Hh as [-> | Hh]).
  - apply getAccount_shape.
  - apply deposit_shape.
  - apply withdraw_shape.
  - unfold serve. cbv zeta.
    destruct (HasSuffix (Path r) "/deposit"); [apply deposit_shape |].
    destruct (HasSuffix (Path r) "/withdraw");
      [apply withdraw_shape | apply getAccount_shape].
  - inversion Hh.
Qed.

Lemma response_shape_witness :
  let max := POST "localhost:9001" "acc-123" "deposit"
               (Some {| Amount := F64.MaxFloat64 |}) in
  let res := serve (run accounts [max]) max in
  status res.2 = StatusOK
  /\ Written res.2 = []
  /\ ((status res.2 = StatusOK
       /\ ContentType res.2 = Some "application/json"
       /\ exists a, Written res.2 = [JAccount a]
                    /\ F64.is_finite (Balance a) = true)
      \/ (status res.2 = StatusOK
          /\ ContentType res.2 = Some "application/json"
          /\ Written res.2 = []
          /\ exists id acc, res.1 !! id = Some acc
                            /\ F64.is_finite (Balance acc) = false)
      \/ (status res.2 ∈ [StatusBadRequest; StatusForbidden; StatusNotFound;
                          StatusMethodNotAllowed]
          /\ ContentType res.2 = None
          /\ (Written res.2 = []
              \/ exists msg, Written res.2 = [JError msg]))).
Proof.
  intros max res.
  split; [vm_compute; reflexivity |]. split; [vm_compute; reflexivity |].
  apply (response_shape serve (run accounts [max]) max).
  apply list_elem_of_further, list_elem_of_further, list_elem_of_further,
    list_elem_of_here.
Defined.

(** [deposit] and [withdraw] read the path only through its third part. *)
Lemma post_target (h : Handler) accts r1 r2 id p0 p1 q0 q1 rest1 rest2 :
  (h = deposit \/ h = withdraw) ->
  ReqMethod r1 = ReqMethod r2 -> Host r1 = Host r2 -> Body r1 = Body r2 ->
  Split (Path r1) "/" = p0 :: p1 :: id :: rest1 ->
  Split (Path r2) "/" = q0 :: q1 :: id :: rest2 ->
  h accts r1 = h accts r2.
Proof.
  intros Hh Hm Hhost Hb H1 H2.
  destruct Hh as [-> | ->]; [unfold deposit | unfold withdraw];
    rewrite H1, H2, Hm, Hhost, Hb; reflexivity.
Qed.

(** X5. [deposit] and [withdraw] take the account id from the third part
    of the path and the action from its end: whatever stands between
    [/accounts/{id}/] and the final [/deposit] or [/withdraw] is ignored,
    and the request is served like the plain one. *)
Theorem extra_segments_ignored accts host id mid body :
  segment id = true ->
  serve accts {| ReqMethod := "POST";
                 Path := "/accounts/" ++ id ++ "/" ++ mid ++ "/deposit";
                 Host := host; Body := body |}
  = serve accts (POST host id "deposit" body)
  /\ serve accts {| ReqMethod := "POST";
                    Path := "/accounts/" ++ id ++ "/" ++ mid ++ "/withdraw";
                    Host := host; Body := body |}
     = serve accts (POST host id "withdraw" body).
Proof.
  intros Hseg.
  assert (Hparts : forall tail,
             Split ("/accounts/" ++ id ++ "/" ++ tail) "/"
             = "" :: "accounts" :: id :: Split tail "/").
  { intros tail.
    change ("/accounts/" ++ id ++ "/" ++ tail)
      with (String "/" ("accounts" ++ String "/" (id ++ String "/" tail))).
    cbn [Split]. rewrite Ascii.eqb_refl.
    rewrite (Split_segment "accounts") by reflexivity.
    rewrite (Split_segment id) by assumption. reflexivity. }
  assert (Hsuf : forall x a b, String.length b <= String.length a ->
             HasSuffix ("/accounts/" ++ id ++ "/" ++ x ++ a) b
             = HasSuffix a b).
  { intros x a b Hle.
    rewrite 4 HasSuffix_append; [reflexivity | ..];
      rewrite ?length_append; lia. }
  rewrite serve_deposit, serve_withdraw. unfold serve. cbn [Path].
  rewrite (Hsuf mid "/deposit" "/deposit"), (Hsuf mid "/withdraw" "/deposit"),
    (Hsuf mid "/withdraw" "/withdraw") by (cbn; lia).
  change (HasSuffix "/deposit" "/deposit") with true.
  change (HasSuffix "/withdraw" "/deposit") with false.
  change (HasSuffix "/withdraw" "/withdraw") with true.
  cbv iota.
  split.
  - eapply post_target; [left; reflexivity | reflexivity .. | |].
    + cbn [Path]. apply Hparts.
    + unfold POST. cbn [Path]. apply Hparts.
  - eapply post_target; [right; reflexivity | reflexivity .. | |].
    + cbn [Path]. apply Hparts.
    + unfold POST. cbn [Path]. apply Hparts.
Qed.

Lemma extra_segments_ignored_witness :
  let body := Some {| Amount := F64.of_dyadic 100 0 |} in
  let res := serve accounts
               {| ReqMethod := "POST";
                  Path := "/accounts/acc-456/x/y/deposit";
                  Host := "localhost:9001"; Body := body |} in
  status res.2 = StatusOK
  /\ (Balance <$> res.1 !! "acc-456") = Some (F64.of_dyadic (-201) (-2))
  /\ res = serve accounts (POST "localhost:9001" "acc-456" "deposit" body).
Proof.
  intros body res.
  split; [reflexivity |]. split; [reflexivity |].
  exact (proj1 (extra_segments_ignored accounts "localhost:9001" "acc-456"
                  "x/y" body eq_refl)).
Defined.

End BankExtra.

(** ** The multi-account server over a run of requests *)

Module BankRuns.
Import strings Bank StringsFacts Routing Handlers Outcome.

(** A request changes the store, if at all, by adding the amount to, or
    subtracting it from, the balance of the account named in the path. *)
Lemma serve_change accts r :
  (serve accts r).1 = accts
  \/ exists acc t b,
       Body r = Some t
       /\ accts !! nth 2 (Split (Path r) "/") "" = Some acc
       /\ (b = F64.add (Balance acc) (Amount t)
           \/ b = F64.sub (Balance acc) (Amount t))
       /\ (serve accts r).1
          = <[nth 2 (Split (Path r) "/") "" := withBalance acc b]> accts.
Proof.
  unfold serve, getAccount, deposit, withdraw. cbv zeta.
  branch; cbn [fst];
    first
      [ left; reflexivity
      | right; do 3 eexists; split; [reflexivity |]; split; [reflexivity |];
        split; [left; reflexivity | reflexivity]
      | right; do 3 eexists; split; [reflexivity |]; split; [reflexivity |];
        split; [right; reflexivity | reflexivity] ].
Qed.

Lemma accounts_lookup id acc0 :
  accounts !! id = Some acc0 ->
  (id = "acc-123" \/ id = "acc-456")
  /\ AccountID acc0 = id /\ Links acc0 = ∅.
Proof.
  unfold accounts. intros H.
  apply lookup_insert_Some in H as [[<- <-] | [_ H]]; [auto |].
  apply lookup_insert_Some in H as [[<- <-] | [_ H]]; [auto |].
  rewrite lookup_empty in H. discriminate H.
Qed.

(** Each stored account is an initial account up to its balance. *)
Local Abbreviation initially s :=
  (dom s = dom accounts
   /\ forall id acc, s !! id = Some acc ->
        exists acc0, accounts !! id = Some acc0
                     /\ acc = withBalance acc0 (Balance acc)).

Lemma initially_accounts : initially accounts.
Proof.
  split; [reflexivity |]. intros id acc H. exists acc. split; [exact H |].
  destruct acc; reflexivity.
Qed.

Lemma initially_step s r : initially s -> initially (serve s r).1.
Proof.
  intros [Hdom Hacc].
  destruct (serve_change s r) as [-> | (acc & t & b & _ & Hl & _ & ->)];
    [split; assumption |].
  split.
  - rewrite <- Hdom. apply dom_insert_lookup_L. eauto.
  - intros id acc' H.
    apply lookup_insert_Some in H as [[<- <-] | [_ H]]; [| exact (Hacc _ _ H)].
    destruct (Hacc _ _ Hl) as (acc0 & H0 & Heq). exists acc0.
    split; [exact H0 |]. rewrite Heq. reflexivity.
Qed.

Lemma initially_run rs : forall s, initially s -> initially (run s rs).
Proof.
  induction rs as [| r rs IH]; intros s Hs; [exact Hs |].
  cbn [run]. exact (IH _ (initially_step s r Hs)).
Qed.

(** X6. Whatever requests have been served since the start, the store
    holds exactly the two initial accounts, each under its own
    [AccountID], with the holder, currency and (empty) links it started
    with: only balances differ from the initial store. *)
Theorem reachable_accounts (rs : list Request) :
  let s := run accounts rs in
  dom s = {["acc-123"; "acc-456"]}
  /\ forall id acc,
       s !! id = Some acc ->
       AccountID acc = id
       /\ Links acc = ∅
       /\ exists acc0, accounts !! id = Some acc0
                       /\ acc = withBalance acc0 (Balance acc).
Proof.
  intros s. destruct (initially_run rs accounts initially_accounts)
    as [Hdom Hacc]. fold s in Hdom, Hacc.
  split.
  - rewrite Hdom. unfold accounts.
    rewrite !dom_insert_L, dom_empty_L. set_solver.
  - intros id acc H. destruct (Hacc id acc H) as (acc0 & H0 & Heq).
    destruct (accounts_lookup id acc0 H0) as (_ & Hid & Hlinks).
    rewrite Heq. cbn [AccountID Links withBalance].
    split; [exact Hid |]. split; [exact Hlinks |].
    exists acc0. split; [exact H0 |]. reflexivity.
Qed.

Lemma reachable_accounts_witness :
  let rs := [POST "localhost:9001" "acc-456" "deposit"
               (Some {| Amount := F64.of_dyadic 100 0 |});
             POST "localhost:9001" "acc-789" "deposit"
               (Some {| Amount := F64.of_dyadic 100 0 |})] in
  let acc := {| AccountID := "acc-456"; AccountHolder := "Jane Smith";
                Balance := F64.of_dyadic (-201) (-2); Currency := "USD";
                Links := ∅ |} in
  run accounts rs !! "acc-456" = Some acc
  /\ dom (run accounts rs) = {["acc-123"; "acc-456"]}
  /\ AccountID acc = "acc-456" /\ Links acc = ∅.
Proof.
  intros rs acc.
  assert (Hacc : run accounts rs !! "acc-456" = Some acc)
    by (vm_compute; reflexivity).
  destruct (reachable_accounts rs) as [Hdom Hall].
  destruct (Hall "acc-456" acc Hacc) as (Hid & Hl & _).
  split; [exact Hacc |]. split; [exact Hdom |]. split; [exact Hid | exact Hl].
Defined.

Local Abbreviation sound s :=
  (forall id acc, s !! id = Some acc ->
     F64.valid (Balance acc) = true /\ F64.is_nan (Balance acc) = false).

Lemma sound_accounts : sound accounts.
Proof.
  intros id acc H. unfold accounts in H.
  apply lookup_insert_Some in H as [[<- <-] | [_ H]]; [split; reflexivity |].
  apply lookup_insert_Some in H as [[<- <-] | [_ H]]; [split; reflexivity |].
  rewrite lookup_empty in H. discriminate H.
Qed.

Lemma sound_step s r : decodable r = true -> sound s -> sound (serve s r).1.
Proof.
  intros Hdec Hs.
  destruct (serve_change s r) as [-> | (acc & t & b & Hb & Hl & Hop & ->)];
    [exact Hs |].
  intros id acc' H.
  apply lookup_insert_Some in H as [[<- <-] | [_ H]]; [| exact (Hs _ _ H)].
  destruct (Hs _ _ Hl) as [Hv Hn].
  unfold decodable in Hdec. rewrite Hb in Hdec.
  apply andb_prop in Hdec as [Hva Hfa]. cbn [Balance withBalance].
  destruct Hop as [-> | ->].
  - split; [now apply F64Closure.add_valid | now apply F64Closure.add_not_nan].
  - split; [now apply F64Closure.sub_valid | now apply F64Closure.sub_not_nan].
Qed.

Lemma sound_run rs :
  forall s, Forall (fun r => decodable r = true) rs -> sound s ->
            sound (run s rs).
Proof.
  induction rs as [| r rs IH]; intros s Hrs Hs; [exact Hs |].
  apply Forall_cons in Hrs as [Hr Hrs].
  cbn [run]. exact (IH _ Hrs (sound_step s r Hr Hs)).
Qed.

(** X7. As long as every decoded amount is a finite [float64], every
    stored balance stays a value of the binary64 format and never becomes
    NaN, however many deposits and withdrawals have been served. *)
Theorem reachable_balances (rs : list Request) :
  Forall (fun r => decodable r = true) rs ->
  forall id acc,
    run accounts rs !! id = Some acc ->
    F64.valid (Balance acc) = true /\ F64.is_nan (Balance acc) = false.
Proof. intros Hrs. exact (sound_run rs accounts Hrs sound_accounts). Qed.

Lemma reachable_balances_witness :
  let rs := [POST "localhost:9001" "acc-456" "deposit"
               (Some {| Amount := F64.of_dyadic 100 0 |});
             POST "localhost:9001" "acc-123" "withdraw"
               (Some {| Amount := F64.of_dyadic 2000 0 |})] in
  Forall (fun r => decodable r = true) rs
  /\ (Balance <$> run accounts rs !! "acc-123")
     = Some (F64.of_dyadic (-2997) (-2))
  /\ forall id acc,
       run accounts rs !! id = Some acc ->
       F64.valid (Balance acc) = true /\ F64.is_nan (Balance acc) = false.
Proof.
  intros rs.
  assert (Hrs : Forall (fun r => decodable r = true) rs).
  { repeat constructor. }
  split; [exact Hrs |]. split; [reflexivity |].
  exact (reachable_balances rs Hrs).
Defined.

(** [getAccount] does not read the body. *)
Lemma serve_get accts host id body :
  HasSuffix ("/accounts/" ++ id) "/deposit" = false ->
  HasSuffix ("/accounts/" ++ id) "/withdraw" = false ->
  serve accts {| ReqMethod := "GET"; Path := "/accounts/" ++ id;
                 Host := host; Body := body |}
  = match accts !! id with
    | None => (accts, WriteHeader StatusNotFound newResponse)
    | Some acc =>
        (accts, Encode (JAccount (addHATEOASLinks acc ("http://" ++ host)))
                  (SetContentType "application/json" newResponse))
    end.
Proof.
  intros Hd Hw. unfold serve. cbn [Path]. rewrite Hd, Hw.
  unfold getAccount.
  cbn [ReqMethod Path Host String.eqb Ascii.eqb Bool.eqb negb].
  rewrite TrimPrefix_append. reflexivity.
Qed.

(** A GET that is answered with a representation was answered by
    [getAccount] for a stored account. *)
Lemma get_representation accts host id a :
  a ∈ representations (serve accts (GET host id)).2 ->
  exists acc, accts !! id = Some acc
              /\ a = addHATEOASLinks acc ("http://" ++ host).
Proof.
  unfold serve. cbv zeta.
  destruct (HasSuffix (Path (GET host id)) "/deposit");
    [intros H; inversion H |].
  destruct (HasSuffix (Path (GET host id)) "/withdraw");
    [intros H; inversion H |].
  rewrite getAccount_GET. destruct (accts !! id) as [acc |];
    [| intros H; inversion H].
  cbn [snd]. rewrite representations_account.
  destruct (F64.is_finite _); intros H; [| inversion H].
  apply list_elem_of_singleton in H. eauto.
Qed.

Lemma links_lookup acc base rel l :
  Links (addHATEOASLinks acc base) !! rel = Some l ->
  (rel = "self"
   /\ l = {| Href := base ++ "/accounts/" ++ AccountID acc;
             Method := "GET"; Rel := "self" |})
  \/ (rel = "deposit"
      /\ l = {| Href := base ++ "/accounts/" ++ AccountID acc ++ "/deposit";
                Method := "POST"; Rel := "deposit" |})
  \/ (rel = "withdraw"
      /\ F64.gtb (Balance acc) F64.zero = true
      /\ l = {| Href := base ++ "/accounts/" ++ AccountID acc ++ "/withdraw";
                Method := "POST"; Rel := "withdraw" |}).
Proof.
  unfold addHATEOASLinks. cbn [Links].
  destruct (F64.gtb (Balance acc) F64.zero); intros H;
    repeat (apply lookup_insert_Some in H as [[<- <-] | [_ H]]; [auto |]);
    rewrite lookup_empty in H; discriminate H.
Qed.

(** X8. In every reachable store the links of a representation are live:
    a request with the method of an advertised link, sent to the path of
    its href on the same host, is answered 200 or, when its body is
    rejected, 400; never 403, 404 or 405. *)
Theorem links_followable (rs : list Request) host id a rel l body :
  let s := run accounts rs in
  a ∈ representations (serve s (GET host id)).2 ->
  Links a !! rel = Some l ->
  exists p,
    Href l = "http://" ++ host ++ p
    /\ let res := serve s {| ReqMethod := Method l; Path := p;
                             Host := host; Body := body |} in
       status res.2 = StatusOK \/ status res.2 = StatusBadRequest.
Proof.
  intros s Ha Hl.
  destruct (get_representation s host id a Ha) as (acc & Hacc & ->).
  destruct (initially_run rs accounts initially_accounts) as [_ Hinit].
  destruct (Hinit id acc Hacc) as (acc0 & H0 & Heq).
  destruct (accounts_lookup id acc0 H0) as (Hid & Hname & _).
  assert (Hacc_id : AccountID acc = id) by (rewrite Heq; exact Hname).
  assert (Hseg : segment id = true) by (destruct Hid as [-> | ->]; reflexivity).
  destruct (links_lookup _ _ _ _ Hl) as [[-> ->] | [[-> ->] | (-> & Hpos & ->)]];
    cbn [Href Method]; rewrite Hacc_id.
  - exists ("/accounts/" ++ id). split; [reflexivity |].
    cbv zeta. rewrite serve_get by (destruct Hid as [-> | ->]; reflexivity).
    fold s. rewrite Hacc. left. apply status_account.
  - exists ("/accounts/" ++ id ++ "/deposit"). split; [reflexivity |].
    cbv zeta.
    change {| ReqMethod := "POST"; Path := "/accounts/" ++ id ++ "/deposit";
              Host := host; Body := body |}
      with (POST host id "deposit" body).
    rewrite serve_deposit, (deposit_POST _ _ _ _ acc) by assumption.
    destruct body as [t |]; [destruct (F64.leb (Amount t) F64.zero) |];
      cbn [fst snd]; rewrite ?status_Encode;
      (left; reflexivity) || (right; reflexivity).
  - exists ("/accounts/" ++ id ++ "/withdraw"). split; [reflexivity |].
    cbv zeta.
    change {| ReqMethod := "POST"; Path := "/accounts/" ++ id ++ "/withdraw";
              Host := host; Body := body |}
      with (POST host id "withdraw" body).
    rewrite serve_withdraw, (withdraw_POST _ _ _ _ acc) by assumption.
    rewrite (F64Order.gt_zero_not_le _ Hpos).
    destruct body as [t |]; [destruct (F64.leb (Amount t) F64.zero) |];
      cbn [fst snd]; rewrite ?status_Encode;
      (left; reflexivity) || (right; reflexivity).
Qed.

Lemma links_followable_witness :
  let acc := {| AccountID := "acc-456"; AccountHolder := "Jane Smith";
                Balance := F64.of_dyadic (-601) (-2); Currency := "USD";
                Links := ∅ |} in
  let a := addHATEOASLinks acc "http://localhost:9001" in
  let l := {| Href := "http://localhost:9001/accounts/acc-456/deposit";
              Method := "POST"; Rel := "deposit" |} in
  a ∈ representations (serve (run accounts [])
                         (GET "localhost:9001" "acc-456")).2
  /\ Links a !! "deposit" = Some l
  /\ exists p,
       Href l = "http://" ++ "localhost:9001" ++ p
       /\ let res := serve (run accounts [])
                       {| ReqMethod := Method l; Path := p;
                          Host := "localhost:9001"; Body := None |} in
          status res.2 = StatusOK \/ status res.2 = StatusBadRequest.
Proof.
  intros acc a l.
  assert (Ha : a ∈ representations
                 (serve (run accounts []) (GET "localhost:9001" "acc-456")).2).
  { cbn [run]. rewrite BankSpec.serve_GET by reflexivity.
    rewrite BankSpec.accounts_acc456. apply list_elem_of_here. }
  assert (Hl : Links a !! "deposit" = Some l) by apply links_deposit.
  split; [exact Ha |]. split; [exact Hl |].
  exact (links_followable [] "localhost:9001" "acc-456" a "deposit" l None
           Ha Hl).
Defined.

(** X9. In every store reachable through requests with finite amounts, a
    representation advertises [withdraw] exactly when a withdrawal from
    that account would not be answered 403. *)
Theorem withdraw_link_iff_allowed (rs : list Request) host id a body :
  Forall (fun r => decodable r = true) rs ->
  let s := run accounts rs in
  a ∈ representations (serve s (GET host id)).2 ->
  is_Some (Links a !! "withdraw")
  <-> status (serve s (POST host id "withdraw" body)).2 <> StatusForbidden.
Proof.
  intros Hrs s Ha.
  destruct (get_representation s host id a Ha) as (acc & Hacc & ->).
  destruct (initially_run rs accounts initially_accounts) as [_ Hinit].
  destruct (Hinit id acc Hacc) as (acc0 & H0 & _).
  destruct (accounts_lookup id acc0 H0) as (Hid & _ & _).
  assert (Hseg : segment id = true) by (destruct Hid as [-> | ->]; reflexivity).
  destruct (sound_run rs accounts Hrs sound_accounts id acc Hacc) as [_ Hnan].
  rewrite links_withdraw, serve_withdraw,
    (withdraw_POST _ _ _ _ acc) by assumption.
  rewrite (F64Closure.gt_zero_negb_le _ Hnan).
  destruct (F64.leb (Balance acc) F64.zero); cbn [negb fst snd].
  - split; [intros [x Hx]; discriminate Hx | intros H; now contradiction H].
  - split; [| intros _; eexists; reflexivity].
    intros _ H.
    destruct body as [t |]; [destruct (F64.leb (Amount t) F64.zero) |];
      cbn [fst snd] in H; absurd_status H.
Qed.

Lemma withdraw_link_iff_allowed_witness :
  let rs := [POST "localhost:9001" "acc-123" "withdraw"
               (Some {| Amount := F64.of_dyadic 2000 0 |})] in
  let acc := {| AccountID := "acc-123"; AccountHolder := "John Doe";
                Balance := F64.of_dyadic (-2997) (-2); Currency := "USD";
                Links := ∅ |} in
  let a := addHATEOASLinks acc "http://localhost:9001" in
  Forall (fun r => decodable r = true) rs
  /\ a ∈ representations (serve (run accounts rs)
                            (GET "localhost:9001" "acc-123")).2
  /\ Links a !! "withdraw" = None
  /\ (is_Some (Links a !! "withdraw")
      <-> status (serve (run accounts rs)
                    (POST "localhost:9001" "acc-123" "withdraw" None)).2
          <> StatusForbidden).
Proof.
  intros rs acc a.
  assert (Hrs : Forall (fun r => decodable r = true) rs)
    by repeat constructor.
  assert (Ha : a ∈ representations
                 (serve (run accounts rs)
                    (GET "localhost:9001" "acc-123")).2).
  { assert (Hrun : run accounts rs !! "acc-123" = Some acc).
    { unfold rs. cbn [run]. rewrite serve_withdraw.
      erewrite withdraw_accepted;
        [| reflexivity | exact BankSpec.accounts_acc123
         | reflexivity | reflexivity ].
      cbn [fst]. rewrite lookup_insert_eq. reflexivity. }
    rewrite BankSpec.serve_GET by reflexivity. rewrite Hrun.
    apply list_elem_of_here. }
  split; [exact Hrs |]. split; [exact Ha |]. split; [reflexivity |].
  exact (withdraw_link_iff_allowed rs "localhost:9001" "acc-123" a None
           Hrs Ha).
Defined.

(** X10. Withdrawing exactly the balance of an account whose balance is
    finite and greater than zero is answered 200, leaves the balance at
    zero and a representation without the [withdraw] link; a withdrawal
    from that account requested right after it, whatever its body, is
    answered 403. *)
Theorem withdraw_everything accts host id acc body :
  segment id = true ->
  accts !! id = Some acc ->
  F64.is_finite (Balance acc) = true ->
  F64.gtb (Balance acc) F64.zero = true ->
  let res := serve accts
               (POST host id "withdraw"
                  (Some {| Amount := Balance acc |})) in
  status res.2 = StatusOK
  /\ res.1 !! id = Some (withBalance acc F64.zero)
  /\ (exists rep, Written res.2 = [JAccount rep]
                  /\ Balance rep = F64.zero
                  /\ dom (Links rep) = {["self"; "deposit"]})
  /\ status (serve res.1 (POST host id "withdraw" body)).2 = StatusForbidden.
Proof.
  intros Hseg Hacc Hfin Hpos res. subst res.
  rewrite serve_withdraw, (withdraw_accepted _ _ _ _ acc) by assumption.
  rewrite (F64Closure.sub_self _ Hfin). cbn [fst snd].
  split; [reflexivity |]. split; [apply lookup_insert_eq |].
  split.
  - eexists. split; [reflexivity |]. split; [reflexivity |].
    rewrite links_dom. reflexivity.
  - rewrite serve_withdraw.
    rewrite (withdraw_POST _ _ _ _ (withBalance acc F64.zero))
      by (assumption || apply lookup_insert_eq).
    reflexivity.
Qed.

Lemma withdraw_everything_witness :
  let acc := {| AccountID := "acc-123"; AccountHolder := "John Doe";
                Balance := F64.of_dyadic 5003 (-2); Currency := "USD";
                Links := ∅ |} in
  let res := serve accounts
               (POST "localhost:9001" "acc-123" "withdraw"
                  (Some {| Amount := Balance acc |})) in
  F64.is_finite (Balance acc) = true
  /\ F64.gtb (Balance acc) F64.zero = true
  /\ status res.2 = StatusOK
  /\ res.1 !! "acc-123" = Some (withBalance acc F64.zero)
  /\ status (serve res.1 (POST "localhost:9001" "acc-123" "withdraw"
                            (Some {| Amount := F64.of_dyadic 1 0 |}))).2
     = StatusForbidden.
Proof.
  intros acc res.
  split; [reflexivity |]. split; [reflexivity |].
  destruct (withdraw_everything accounts "localhost:9001" "acc-123" acc
              (Some {| Amount := F64.of_dyadic 1 0 |})
              eq_refl BankSpec.accounts_acc123 eq_refl eq_refl)
    as (Hst & Hs & _ & Hf).
  split; [exact Hst |]. split; [exact Hs | exact Hf].
Defined.

(** X17. A deposit of an amount greater than zero into an account whose
    balance is zero is answered 200, stores exactly that amount, and its
    representation carries the [withdraw] link again.  (The
    representation is returned for a finite amount, as every decoded
    amount is; an infinite one would be stored and the body left
    empty.) *)
Theorem deposit_into_empty accts host id acc amount :
  segment id = true ->
  accts !! id = Some acc ->
  Balance acc = F64.zero ->
  F64.gtb amount F64.zero = true ->
  let res := serve accts
               (POST host id "deposit" (Some {| Amount := amount |})) in
  status res.2 = StatusOK
  /\ res.1 !! id = Some (withBalance acc amount)
  /\ (F64.is_finite amount = true ->
      exists rep, Written res.2 = [JAccount rep]
                  /\ Balance rep = amount
                  /\ dom (Links rep) = {["self"; "deposit"; "withdraw"]})
  /\ (F64.is_finite amount = false -> Written res.2 = []).
Proof.
  intros Hseg Hacc Hzero Hpos res. subst res.
  rewrite serve_deposit, (deposit_accepted _ _ _ _ acc) by assumption.
  assert (Hadd : F64.add (Balance acc) amount = amount).
  { rewrite Hzero.
    destruct amount as [[] | [] | | [] m e]; try discriminate Hpos;
      reflexivity. }
  rewrite Hadd. cbn [fst snd]. rewrite status_account, Written_account.
  cbn [Balance addHATEOASLinks withBalance].
  split; [reflexivity |]. split; [apply lookup_insert_eq |].
  split; intros ->; [| reflexivity].
  eexists. split; [reflexivity |]. split; [reflexivity |].
  rewrite links_dom. cbn [Balance withBalance]. rewrite Hpos. reflexivity.
Qed.

Lemma deposit_into_empty_witness :
  let acc := {| AccountID := "acc-123"; AccountHolder := "John Doe";
                Balance := F64.zero; Currency := "USD"; Links := ∅ |} in
  let emptied := (serve accounts
                    (POST "localhost:9001" "acc-123" "withdraw"
                       (Some {| Amount := F64.of_dyadic 5003 (-2) |}))).1 in
  let res := serve emptied
               (POST "localhost:9001" "acc-123" "deposit"
                  (Some {| Amount := F64.of_dyadic 100 0 |})) in
  emptied !! "acc-123" = Some acc
  /\ status res.2 = StatusOK
  /\ res.1 !! "acc-123" = Some (withBalance acc (F64.of_dyadic 100 0))
  /\ exists rep, Written res.2 = [JAccount rep]
                 /\ dom (Links rep) = {["self"; "deposit"; "withdraw"]}.
Proof.
  intros acc emptied res.
  assert (Hacc : emptied !! "acc-123" = Some acc).
  { unfold emptied. rewrite serve_withdraw.
    erewrite withdraw_accepted;
      [| reflexivity | exact BankSpec.accounts_acc123
       | reflexivity | reflexivity ].
    cbn [fst]. rewrite lookup_insert_eq. reflexivity. }
  split; [exact Hacc |].
  destruct (deposit_into_empty emptied "localhost:9001" "acc-123" acc
              (F64.of_dyadic 100 0) eq_refl Hacc eq_refl eq_refl)
    as (Hst & Hs & Hfin & _).
  split; [exact Hst |]. split; [exact Hs |].
  destruct (Hfin eq_refl) as (rep & Hw & _ & Hd).
  exists rep. split; [exact Hw | exact Hd].
Defined.

End BankRuns.

(** ** The single-account server *)

Module BankApiSpec.
Import Bank Handlers Outcome.

Ltac routes Hh :=
  repeat (apply elem_of_cons in Hh as [-> | Hh]); [| | | inversion Hh];
  unfold BankApi.accountRoute, BankApi.depositRoute, BankApi.withdrawRoute,
    BankApi.getAccount, BankApi.deposit, BankApi.withdraw;
  cbv zeta.

Ltac close :=
  cbn [fst snd BankApi.balance BankApi.account BankApi.stdout
       BankApi.setAccount BankApi.Printf
       AccountID AccountHolder Currency Balance withBalance
       BankApi.addHATEOASLinks];
  repeat match goal with
    | |- _ /\ _ => split
    | |- _ -> _ => intro
    end;
  try reflexivity;
  try match goal with
    | H : status _ <> _ |- _ => exfalso; apply H; apply status_account
    | H : status _ = _ |- _ => absurd_status H
    end.

(** X11. No route closure ever assigns the package variable [balance] or
    changes the id, holder or currency of the account; each call prints
    exactly one line, the method and the path; and a response other than
    200 leaves the account as it was. *)
Theorem api_frame (h : BankApi.Handler) g r :
  h ∈ [BankApi.accountRoute; BankApi.depositRoute; BankApi.withdrawRoute] ->
  let res := h g r in
  BankApi.balance res.1 = BankApi.balance g
  /\ AccountID (BankApi.account res.1) = AccountID (BankApi.account g)
  /\ AccountHolder (BankApi.account res.1) = AccountHolder (BankApi.account g)
  /\ Currency (BankApi.account res.1) = Currency (BankApi.account g)
  /\ BankApi.stdout res.1 = (BankApi.stdout g ++ [BankApi.logLine r])%list
  /\ (status res.2 <> StatusOK ->
      BankApi.account res.1 = BankApi.account g).
Proof. intros Hh. routes Hh; branch; close. Qed.

Lemma api_frame_witness :
  let r := {| ReqMethod := "POST"; Path := "/account/deposit";
              Host := "localhost:9001"; Body := None |} in
  let res := BankApi.depositRoute BankApi.initial r in
  status res.2 = StatusBadRequest
  /\ BankApi.balance res.1 = BankApi.balance BankApi.initial
  /\ BankApi.stdout res.1 = ["POST /account/deposit" ++ String "010" ""]
  /\ BankApi.account res.1 = BankApi.account BankApi.initial.
Proof.
  intros r res.
  destruct (api_frame BankApi.depositRoute BankApi.initial r)
    as (Hb & _ & _ & _ & Hout & Hacc).
  - apply list_elem_of_further, list_elem_of_here.
  - split; [reflexivity |]. split; [exact Hb |]. split; [exact Hout |].
    apply Hacc. discriminate.
Defined.

Lemma ok_response (h : BankApi.Handler) g r :
  h ∈ [BankApi.accountRoute; BankApi.depositRoute; BankApi.withdrawRoute] ->
  status (h g r).2 = StatusOK ->
  Written (h g r).2
  = (if F64.is_finite (Balance (BankApi.account (h g r).1))
     then [JAccount (BankApi.account (h g r).1)] else [])
  /\ exists b, BankApi.account (h g r).1
               = BankApi.addHATEOASLinks (withBalance (BankApi.account g) b)
                   ("http://" ++ Host r).
Proof.
  intros Hh.
  pose (body := fun a => if F64.is_finite (Balance a) then [JAccount a]
                         else []).
  change (status (h g r).2 = StatusOK ->
          Written (h g r).2 = body (BankApi.account (h g r).1)
          /\ exists b, BankApi.account (h g r).1
                       = BankApi.addHATEOASLinks
                           (withBalance (BankApi.account g) b)
                           ("http://" ++ Host r)).
  routes Hh; branch; cbn [fst snd]; intros Hst;
    try absurd_status Hst;
    cbn [BankApi.account BankApi.setAccount BankApi.Printf];
    (split; [apply Written_account |]).
  - exists (Balance (BankApi.account g)).
    destruct (BankApi.account g); reflexivity.
  - eexists. reflexivity.
  - eexists. reflexivity.
Qed.

(** X12. After a 200 the body is the stored account itself when its
    balance is finite, and empty when it is not (the encoder refuses the
    value and the handler drops the error): the links are written into
    the global account, which carries [self] and [deposit], and
    [withdraw] exactly when its [Balance] is greater than zero. *)
Theorem response_is_stored_account (h : BankApi.Handler) g r :
  h ∈ [BankApi.accountRoute; BankApi.depositRoute; BankApi.withdrawRoute] ->
  let res := h g r in
  status res.2 = StatusOK ->
  Written res.2
  = (if F64.is_finite (Balance (BankApi.account res.1))
     then [JAccount (BankApi.account res.1)] else [])
  /\ (exists b, BankApi.account res.1
                = BankApi.addHATEOASLinks (withBalance (BankApi.account g) b)
                    ("http://" ++ Host r))
  /\ dom (Links (BankApi.account res.1))
     = if F64.gtb (Balance (BankApi.account res.1)) F64.zero
       then {["self"; "deposit"; "withdraw"]}
       else {["self"; "deposit"]}.
Proof.
  intros Hh res Hst.
  assert (Hdom : forall a base,
             dom (Links (BankApi.addHATEOASLinks a base))
             = if F64.gtb (Balance a) F64.zero
               then ({["self"; "deposit"; "withdraw"]} : gset string)
               else {["self"; "deposit"]}).
  { intros a base. unfold BankApi.addHATEOASLinks. cbn [Links].
    destruct (F64.gtb (Balance a) F64.zero);
      rewrite !dom_insert_L, dom_empty_L; set_solver. }
  destruct (ok_response h g r Hh Hst) as (Hw & b & Hb). fold res in Hw, Hb.
  split; [exact Hw |]. split; [exists b; exact Hb |].
  rewrite Hb. exact (Hdom _ _).
Qed.

Lemma response_is_stored_account_witness :
  let wd := {| ReqMethod := "POST"; Path := "/account/withdraw";
               Host := "localhost:9001";
               Body := Some {| Amount := F64.MaxFloat64 |} |} in
  let get := {| ReqMethod := "GET"; Path := "/account";
                Host := "localhost:9001"; Body := None |} in
  let g := BankApi.run BankApi.initial [wd; wd] in
  let first := BankApi.accountRoute BankApi.initial get in
  let res := BankApi.accountRoute g get in
  (status first.2 = StatusOK
   /\ Written first.2 = [JAccount (BankApi.account first.1)]
   /\ dom (Links (BankApi.account first.1))
      = {["self"; "deposit"; "withdraw"]})
  /\ Balance (BankApi.account g) = S754_infinity true
  /\ status res.2 = StatusOK
  /\ Written res.2 = []
  /\ dom (Links (BankApi.account res.1)) = {["self"; "deposit"]}.
Proof.
  intros wd get g first res.
  assert (Hf : status first.2 = StatusOK) by reflexivity.
  assert (Hst : status res.2 = StatusOK) by reflexivity.
  split.
  - destruct (response_is_stored_account BankApi.accountRoute
                BankApi.initial get)
      as (Hw & _ & Hd); [apply list_elem_of_here | exact Hf |].
    split; [exact Hf |]. split; [exact Hw | exact Hd].
  - destruct (response_is_stored_account BankApi.accountRoute g get)
      as (Hw & _ & Hd); [apply list_elem_of_here | exact Hst |].
    split; [reflexivity |]. split; [exact Hst |].
    split; [exact Hw | exact Hd].
Defined.

(** X13. The response never depends on the links stored by an earlier
    request: they are rebuilt from scratch, so a link advertised once
    cannot survive in a later representation. *)
Theorem stored_links_never_leak (h : BankApi.Handler) g r links :
  h ∈ [BankApi.accountRoute; BankApi.depositRoute; BankApi.withdrawRoute] ->
  let stale :=
    BankApi.setAccount g
      {| AccountID := AccountID (BankApi.account g);
         AccountHolder := AccountHolder (BankApi.account g);
         Balance := Balance (BankApi.account g);
         Currency := Currency (BankApi.account g);
         Links := links |} in
  (h stale r).2 = (h g r).2
  /\ (status (h g r).2 = StatusOK -> (h stale r).1 = (h g r).1).
Proof.
  intros Hh stale. subst stale.
  routes Hh;
    cbn [BankApi.balance BankApi.account BankApi.stdout BankApi.setAccount
         BankApi.Printf Balance];
    branch; close.
Qed.

Lemma stored_links_never_leak_witness :
  let get := {| ReqMethod := "GET"; Path := "/account";
                Host := "localhost:9001"; Body := None |} in
  let all := {| ReqMethod := "POST"; Path := "/account/withdraw";
                Host := "localhost:9001";
                Body := Some {| Amount := F64.of_dyadic 5003 (-2) |} |} in
  let seen := BankApi.setAccount BankApi.initial
                (BankApi.account (BankApi.accountRoute BankApi.initial get).1) in
  is_Some (Links (BankApi.account seen) !! "withdraw")
  /\ (BankApi.withdrawRoute seen all).2
     = (BankApi.withdrawRoute BankApi.initial all).2
  /\ Links (BankApi.account (BankApi.withdrawRoute seen all).1) !! "withdraw"
     = None.
Proof.
  intros get all seen.
  split; [eexists; reflexivity |].
  destruct (stored_links_never_leak BankApi.withdrawRoute BankApi.initial all
              (Links (BankApi.account seen))) as [Hw Hs].
  - apply list_elem_of_further, list_elem_of_further, list_elem_of_here.
  - split; [exact Hw |].
    change (BankApi.setAccount BankApi.initial _) with seen in Hs.
    rewrite (Hs eq_refl). reflexivity.
Defined.

(** What one request does to the package variables. *)
Lemma step_change g r :
  BankApi.balance (BankApi.step g r) = BankApi.balance g
  /\ (BankApi.account (BankApi.step g r) = BankApi.account g
      \/ exists b base,
           BankApi.account (BankApi.step g r)
           = BankApi.addHATEOASLinks (withBalance (BankApi.account g) b) base
           /\ (b = Balance (BankApi.account g)
               \/ exists t,
                    Body r = Some t
                    /\ (b = F64.add (Balance (BankApi.account g)) (Amount t)
                        \/ b = F64.sub (Balance (BankApi.account g))
                                 (Amount t)))).
Proof.
  unfold BankApi.step, BankApi.route,
    BankApi.accountRoute, BankApi.depositRoute, BankApi.withdrawRoute,
    BankApi.getAccount, BankApi.deposit, BankApi.withdraw.
  cbv zeta. branch;
    cbn [fst BankApi.balance BankApi.account BankApi.setAccount
         BankApi.Printf];
    (split; [reflexivity |]);
    first
      [ left; reflexivity
      | right; exists (Balance (BankApi.account g)); eexists;
        split; [| left; reflexivity];
        destruct (BankApi.account g); reflexivity
      | right; do 2 eexists; split; [reflexivity |];
        right; eexists; split; [reflexivity |]; left; reflexivity
      | right; do 2 eexists; split; [reflexivity |];
        right; eexists; split; [reflexivity |]; right; reflexivity ].
Qed.

(** The variables a run starts with, up to the balance and the links of
    the account. *)
Local Abbreviation started g :=
  (BankApi.balance g = F64.of_dyadic 5003 (-2)
   /\ AccountID (BankApi.account g) = "acc-123"
   /\ AccountHolder (BankApi.account g) = "John Doe"
   /\ Currency (BankApi.account g) = "USD").

Lemma started_run rs : forall g, started g -> started (BankApi.run g rs).
Proof.
  induction rs as [| r rs IH]; intros g Hg; [exact Hg |].
  unfold BankApi.run. cbn [foldl]. apply (IH (BankApi.step g r)).
  destruct Hg as (Hb & Hid & Hh & Hc).
  destruct (step_change g r) as [Hbal [-> | (b & base & -> & _)]];
    rewrite Hbal; repeat split; assumption.
Qed.

Local Abbreviation sound g :=
  (F64.valid (Balance (BankApi.account g)) = true
   /\ F64.is_nan (Balance (BankApi.account g)) = false).

Lemma api_sound_run rs :
  forall g, Forall (fun r => decodable r = true) rs -> sound g ->
            sound (BankApi.run g rs).
Proof.
  induction rs as [| r rs IH]; intros g Hrs Hg; [exact Hg |].
  apply Forall_cons in Hrs as [Hr Hrs].
  unfold BankApi.run. cbn [foldl]. apply (IH (BankApi.step g r) Hrs).
  destruct Hg as [Hv Hn].
  destruct (step_change g r)
    as [_ [-> | (b & base & -> & [-> | (t & Ht & Hop)])]];
    cbn [Balance BankApi.addHATEOASLinks withBalance]; [auto | auto |].
  unfold decodable in Hr. rewrite Ht in Hr.
  apply andb_prop in Hr as [Hva Hfa].
  destruct Hop as [-> | ->].
  - split; [now apply F64Closure.add_valid | now apply F64Closure.add_not_nan].
  - split; [now apply F64Closure.sub_valid | now apply F64Closure.sub_not_nan].
Qed.

(** X14. From the start of the server on, the package variable [balance]
    keeps its initial value 1250.75 and the account its id, holder and
    currency; as long as the decoded amounts are finite, the balance of
    the account stays a value of the binary64 format and is never NaN. *)
Theorem reachable_world (rs : list Request) :
  let g := BankApi.run BankApi.initial rs in
  BankApi.balance g = F64.of_dyadic 5003 (-2)
  /\ AccountID (BankApi.account g) = "acc-123"
  /\ AccountHolder (BankApi.account g) = "John Doe"
  /\ Currency (BankApi.account g) = "USD"
  /\ (Forall (fun r => decodable r = true) rs ->
      F64.valid (Balance (BankApi.account g)) = true
      /\ F64.is_nan (Balance (BankApi.account g)) = false).
Proof.
  intros g.
  destruct (started_run rs BankApi.initial) as (Hb & Hid & Hh & Hc);
    [repeat split |].
  repeat (split; [assumption |]).
  intros Hrs. apply (api_sound_run rs BankApi.initial Hrs). split; reflexivity.
Qed.

Lemma reachable_world_witness :
  let rs := [{| ReqMethod := "POST"; Path := "/account/withdraw";
                Host := "localhost:9001";
                Body := Some {| Amount := F64.of_dyadic 2000 0 |} |}] in
  let g := BankApi.run BankApi.initial rs in
  Forall (fun r => decodable r = true) rs
  /\ Balance (BankApi.account g) = F64.of_dyadic (-2997) (-2)
  /\ BankApi.balance g = F64.of_dyadic 5003 (-2)
  /\ F64.valid (Balance (BankApi.account g)) = true.
Proof.
  intros rs g.
  assert (Hrs : Forall (fun r => decodable r = true) rs)
    by repeat constructor.
  destruct (reachable_world rs) as (Hb & _ & _ & _ & Hsound).
  split; [exact Hrs |]. split; [reflexivity |]. split; [exact Hb |].
  exact (proj1 (Hsound Hrs)).
Defined.

(** X15. [withdraw] guards on the package variable [balance], which stays
    at 1250.75: whatever has been served before, no request is ever
    answered 403. *)
Theorem never_forbidden (rs : list Request) r (h : BankApi.Handler) :
  BankApi.route r = Some h ->
  status (h (BankApi.run BankApi.initial rs) r).2 <> StatusForbidden.
Proof.
  intros Hroute.
  destruct (started_run rs BankApi.initial) as (Hb & _); [repeat split |].
  revert Hroute Hb. generalize (BankApi.run BankApi.initial rs). intros g.
  unfold BankApi.route. branch; intros [= <-] Hb;
    unfold BankApi.accountRoute, BankApi.depositRoute, BankApi.withdrawRoute,
      BankApi.getAccount, BankApi.deposit, BankApi.withdraw;
    cbv zeta; cbn [BankApi.balance BankApi.Printf]; try rewrite Hb;
    change (F64.leb (F64.of_dyadic 5003 (-2)) F64.zero) with false;
    cbv iota; branch; cbn [snd]; intros H; absurd_status H.
Qed.

Lemma never_forbidden_witness :
  let all := {| ReqMethod := "POST"; Path := "/account/withdraw";
                Host := "localhost:9001";
                Body := Some {| Amount := F64.of_dyadic 5003 (-2) |} |} in
  let g := BankApi.run BankApi.initial [all] in
  Balance (BankApi.account g) = F64.zero
  /\ BankApi.route all = Some BankApi.withdrawRoute
  /\ status (BankApi.withdrawRoute g all).2 = StatusOK
  /\ status (BankApi.withdrawRoute g all).2 <> StatusForbidden.
Proof.
  intros all g.
  split; [reflexivity |]. split; [reflexivity |]. split; [reflexivity |].
  exact (never_forbidden [all] all BankApi.withdrawRoute eq_refl).
Defined.

(** X16. A withdrawal is accepted by an account that does not advertise
    it: in a reachable world whose account has a balance of zero or less,
    a POST with a finite amount greater than zero is answered 200, the
    balance is never raised and ends negative, neither the representation
    before nor the account stored after carries a [withdraw] link, and
    the body is the stored account when its balance is finite and empty
    when it is not. *)
Theorem unadvertised_withdrawal (rs : list Request) r t :
  Forall (fun r => decodable r = true) rs ->
  let g := BankApi.run BankApi.initial rs in
  ReqMethod r = "POST" ->
  Body r = Some t ->
  F64.valid (Amount t) = true ->
  F64.is_finite (Amount t) = true ->
  F64.gtb (Amount t) F64.zero = true ->
  F64.leb (Balance (BankApi.account g)) F64.zero = true ->
  let res := BankApi.withdrawRoute g r in
  Links (BankApi.addHATEOASLinks (BankApi.account g) ("http://" ++ Host r))
    !! "withdraw" = None
  /\ status res.2 = StatusOK
  /\ Balance (BankApi.account res.1)
     = F64.sub (Balance (BankApi.account g)) (Amount t)
  /\ F64.leb (Balance (BankApi.account res.1)) (Balance (BankApi.account g))
     = true
  /\ F64.ltb (Balance (BankApi.account res.1)) F64.zero = true
  /\ Written res.2
     = (if F64.is_finite (Balance (BankApi.account res.1))
        then [JAccount (BankApi.account res.1)] else [])
  /\ Links (BankApi.account res.1) !! "withdraw" = None.
Proof.
  intros Hrs g Hm Hbody Hva Hfa Hpos Hle res.
  destruct (started_run rs BankApi.initial) as (Hb & _); [repeat split |].
  destruct (api_sound_run rs BankApi.initial Hrs) as [Hv Hn];
    [split; reflexivity |].
  fold g in Hb, Hv, Hn.
  destruct (F64Closure.sub_nonpos_negative _ _ Hv Hva Hle Hpos) as [Hneg Hnot].
  pose proof (F64Monotone.sub_pos_le _ _ Hv Hva Hn Hfa Hpos) as Hdown.
  assert (Hlinks : forall a base,
             F64.gtb (Balance a) F64.zero = false ->
             Links (BankApi.addHATEOASLinks a base) !! "withdraw" = None).
  { intros a base Ha. unfold BankApi.addHATEOASLinks. cbn [Links].
    rewrite Ha. repeat (rewrite lookup_insert_ne by discriminate).
    apply lookup_empty. }
  split; [apply Hlinks, F64Order.le_zero_not_gt, Hle |].
  subst res. unfold BankApi.withdrawRoute, BankApi.withdraw. cbv zeta.
  cbn [BankApi.balance BankApi.account BankApi.Printf BankApi.setAccount].
  rewrite Hm, Hbody, Hb, (F64Order.gt_zero_not_le _ Hpos).
  change (F64.leb (F64.of_dyadic 5003 (-2)) F64.zero) with false.
  cbn [negb String.eqb Ascii.eqb Bool.eqb fst snd BankApi.account].
  split; [apply status_account |]. split; [reflexivity |].
  split; [exact Hdown |]. split; [exact Hneg |].
  split; [apply Written_account |]. apply Hlinks. exact Hnot.
Qed.

Lemma unadvertised_withdrawal_witness :
  let wd amount := {| ReqMethod := "POST"; Path := "/account/withdraw";
                      Host := "localhost:9001";
                      Body := Some {| Amount := amount |} |} in
  let rs := [wd (F64.of_dyadic 2000 0)] in
  let g := BankApi.run BankApi.initial rs in
  let res := BankApi.withdrawRoute g (wd (F64.of_dyadic 100 0)) in
  Forall (fun r => decodable r = true) rs
  /\ Balance (BankApi.account g) = F64.of_dyadic (-2997) (-2)
  /\ F64.leb (Balance (BankApi.account g)) F64.zero = true
  /\ status res.2 = StatusOK
  /\ Balance (BankApi.account res.1) = F64.of_dyadic (-3397) (-2)
  /\ Written res.2 = [JAccount (BankApi.account res.1)]
  /\ Links (BankApi.account res.1) !! "withdraw" = None.
Proof.
  intros wd rs g res.
  assert (Hrs : Forall (fun r => decodable r = true) rs)
    by repeat constructor.
  split; [exact Hrs |]. split; [reflexivity |]. split; [reflexivity |].
  destruct (unadvertised_withdrawal rs (wd (F64.of_dyadic 100 0))
              {| Amount := F64.of_dyadic 100 0 |} Hrs
              eq_refl eq_refl eq_refl eq_refl eq_refl eq_refl)
    as (_ & Hst & Hbal & _ & _ & Hw & Hl).
  split; [exact Hst |]. split; [exact (eq_trans Hbal eq_refl) |].
  split; [exact Hw | exact Hl].
Defined.

Lemma route_known r (h : BankApi.Handler) :
  BankApi.route r = Some h ->
  h ∈ [BankApi.accountRoute; BankApi.depositRoute; BankApi.withdrawRoute].
Proof.
  unfold BankApi.route. branch; intros [= <-].
  - apply list_elem_of_here.
  - apply list_elem_of_further, list_elem_of_here.
  - apply list_elem_of_further, list_elem_of_further, list_elem_of_here.
Qed.

Lemma api_links_lookup a base rel l :
  Links (BankApi.addHATEOASLinks a base) !! rel = Some l ->
  (l = {| Href := base ++ "/account"; Method := "GET"; Rel := "self" |})
  \/ (l = {| Href := base ++ "/account/deposit";
             Method := "POST"; Rel := "deposit" |})
  \/ (l = {| Href := base ++ "/account/withdraw";
             Method := "POST"; Rel := "withdraw" |}).
Proof.
  unfold BankApi.addHATEOASLinks. cbn [Links].
  destruct (F64.gtb (Balance a) F64.zero); intros H;
    repeat (apply lookup_insert_Some in H as [[<- <-] | [_ H]]; [auto |]);
    rewrite lookup_empty in H; discriminate H.
Qed.

(** X18. The links of every representation the server returns are live:
    a request with the method of a link, sent to the path of its href on
    the same host, has a registered route and is answered 200 or, when
    its body is rejected, 400. *)
Theorem api_links_followable (rs : list Request) r (h : BankApi.Handler)
    rel l body :
  let g := BankApi.run BankApi.initial rs in
  BankApi.route r = Some h ->
  status (h g r).2 = StatusOK ->
  Links (BankApi.account (h g r).1) !! rel = Some l ->
  exists p h',
    Href l = "http://" ++ Host r ++ p
    /\ let follow := {| ReqMethod := Method l; Path := p;
                        Host := Host r; Body := body |} in
       BankApi.route follow = Some h'
       /\ (status (h' (h g r).1 follow).2 = StatusOK
           \/ status (h' (h g r).1 follow).2 = StatusBadRequest).
Proof.
  intros g Hroute Hst Hl.
  pose proof (route_known r h Hroute) as Hh.
  destruct (ok_response h g r Hh Hst) as (_ & b & Hacc).
  assert (Hbal : BankApi.balance (h g r).1 = F64.of_dyadic 5003 (-2)).
  { destruct (started_run rs BankApi.initial) as (Hb & _); [repeat split |].
    destruct (step_change g r) as [Hs _].
    unfold BankApi.step in Hs. rewrite Hroute in Hs. rewrite Hs. exact Hb. }
  revert Hbal. rewrite Hacc in Hl. generalize ((h g r).1). intros g' Hbal.
  destruct (api_links_lookup _ _ _ _ Hl) as [-> | [-> | ->]]; cbn [Href Method].
  - exists "/account", BankApi.accountRoute. split; [reflexivity |].
    split; [reflexivity |]. left.
    unfold BankApi.accountRoute, BankApi.getAccount. cbv zeta.
    cbn [ReqMethod String.eqb Ascii.eqb Bool.eqb negb snd].
    apply status_account.
  - exists "/account/deposit", BankApi.depositRoute. split; [reflexivity |].
    split; [reflexivity |].
    unfold BankApi.depositRoute, BankApi.deposit. cbv zeta.
    cbn [ReqMethod Body String.eqb Ascii.eqb Bool.eqb negb].
    destruct body as [t |]; [destruct (F64.leb (Amount t) F64.zero) |];
      cbn [snd]; rewrite ?status_Encode;
      (left; reflexivity) || (right; reflexivity).
  - exists "/account/withdraw", BankApi.withdrawRoute. split; [reflexivity |].
    split; [reflexivity |].
    unfold BankApi.withdrawRoute, BankApi.withdraw. cbv zeta.
    cbn [ReqMethod Body String.eqb Ascii.eqb Bool.eqb negb
         BankApi.balance BankApi.Printf].
    rewrite Hbal.
    change (F64.leb (F64.of_dyadic 5003 (-2)) F64.zero) with false.
    cbv iota.
    destruct body as [t |]; [destruct (F64.leb (Amount t) F64.zero) |];
      cbn [snd]; rewrite ?status_Encode;
      (left; reflexivity) || (right; reflexivity).
Qed.

Lemma api_links_followable_witness :
  let get := {| ReqMethod := "GET"; Path := "/account";
                Host := "localhost:9001"; Body := None |} in
  let g := BankApi.run BankApi.initial [] in
  let l := {| Href := "http://localhost:9001/account/withdraw";
              Method := "POST"; Rel := "withdraw" |} in
  BankApi.route get = Some BankApi.accountRoute
  /\ status (BankApi.accountRoute g get).2 = StatusOK
  /\ Links (BankApi.account (BankApi.accountRoute g get).1) !! "withdraw"
     = Some l
  /\ exists p h',
       Href l = "http://" ++ "localhost:9001" ++ p
       /\ let follow := {| ReqMethod := Method l; Path := p;
                           Host := "localhost:9001"; Body := None |} in
          BankApi.route follow = Some h'
          /\ (status (h' (BankApi.accountRoute g get).1 follow).2 = StatusOK
              \/ status (h' (BankApi.accountRoute g get).1 follow).2
                 = StatusBadRequest).
Proof.
  intros get g l.
  assert (Hl : Links (BankApi.account (BankApi.accountRoute g get).1)
               !! "withdraw" = Some l) by reflexivity.
  split; [reflexivity |]. split; [reflexivity |]. split; [exact Hl |].
  exact (api_links_followable [] get BankApi.accountRoute "withdraw" l None
           eq_refl eq_refl Hl).
Defined.

(** X19. A routed request is answered 405 exactly when its method does not
    fit the route: GET for [/account], POST for [/account/deposit] and
    [/account/withdraw]; the method is checked before anything else, and a
    405 has an empty body. *)
Theorem api_method_not_allowed g r (h : BankApi.Handler) :
  BankApi.route r = Some h ->
  (status (h g r).2 = StatusMethodNotAllowed
   <-> ReqMethod r <> (if String.eqb (Path r) "/account" then "GET"
                       else "POST"))
  /\ (status (h g r).2 = StatusMethodNotAllowed -> Written (h g r).2 = []).
Proof.
  unfold BankApi.route.
  destruct (String.eqb (Path r) "/account");
    [| destruct (String.eqb (Path r) "/account/deposit");
       [| destruct (String.eqb (Path r) "/account/withdraw")]];
    intros [= <-];
    unfold BankApi.accountRoute, BankApi.depositRoute, BankApi.withdrawRoute,
      BankApi.getAccount, BankApi.deposit, BankApi.withdraw;
    cbv zeta;
    (destruct (String.eqb_spec (ReqMethod r) "GET");
     destruct (String.eqb_spec (ReqMethod r) "POST"));
    cbn [negb]; branch; BankExtra.settle.
Qed.

Lemma api_method_not_allowed_witness :
  let r := {| ReqMethod := "POST"; Path := "/account";
              Host := "localhost:9001";
              Body := Some {| Amount := F64.of_dyadic 100 0 |} |} in
  BankApi.route r = Some BankApi.accountRoute
  /\ status (BankApi.accountRoute BankApi.initial r).2
     = StatusMethodNotAllowed
  /\ Written (BankApi.accountRoute BankApi.initial r).2 = [].
Proof.
  intros r.
  split; [reflexivity |]. split; [reflexivity |].
  exact (proj2 (api_method_not_allowed BankApi.initial r BankApi.accountRoute
                  eq_refl) eq_refl).
Defined.

End BankApiSpec.



(** ** The balance moves in the direction of the request *)

Module BankBalance.
Import strings Bank StringsFacts Routing Handlers.

(** X20. A deposit that is accepted never lowers the stored balance, and
    a withdrawal that is accepted never raises it, whatever rounding the
    [float64] arithmetic performs (the amount may even be absorbed and
    leave the balance unchanged). *)
Theorem balance_direction accts host id acc amount :
  segment id = true ->
  accts !! id = Some acc ->
  F64.valid (Balance acc) = true ->
  F64.is_nan (Balance acc) = false ->
  F64.valid amount = true ->
  F64.is_finite amount = true ->
  F64.gtb amount F64.zero = true ->
  let body := Some {| Amount := amount |} in
  let dep := serve accts (POST host id "deposit" body) in
  let wd := serve accts (POST host id "withdraw" body) in
  (exists acc', dep.1 !! id = Some acc'
                /\ Balance acc' = F64.add (Balance acc) amount
                /\ F64.leb (Balance acc) (Balance acc') = true)
  /\ (F64.gtb (Balance acc) F64.zero = true ->
      exists acc', wd.1 !! id = Some acc'
                   /\ Balance acc' = F64.sub (Balance acc) amount
                   /\ F64.leb (Balance acc') (Balance acc) = true).
Proof.
  intros Hseg Hacc Vb Nb Va Fa Hpos body dep wd. subst dep wd body. split.
  - rewrite serve_deposit, (deposit_accepted _ _ _ _ acc) by assumption.
    cbn [fst]. eexists. split; [apply lookup_insert_eq |].
    split; [reflexivity |]. cbn [Balance withBalance].
    now apply F64Monotone.add_pos_ge.
  - intros Hbal.
    rewrite serve_withdraw, (withdraw_accepted _ _ _ _ acc) by assumption.
    cbn [fst]. eexists. split; [apply lookup_insert_eq |].
    split; [reflexivity |]. cbn [Balance withBalance].
    now apply F64Monotone.sub_pos_le.
Qed.

Lemma balance_direction_witness :
  let acc := {| AccountID := "acc-123"; AccountHolder := "John Doe";
                Balance := F64.of_dyadic 5003 (-2); Currency := "USD";
                Links := ∅ |} in
  let tiny := F64.of_dyadic 1 (-60) in
  let dep := serve accounts
               (POST "localhost:9001" "acc-123" "deposit"
                  (Some {| Amount := tiny |})) in
  F64.valid tiny = true /\ F64.is_finite tiny = true
  /\ F64.gtb tiny F64.zero = true
  /\ F64.add (Balance acc) tiny = Balance acc
  /\ exists acc', dep.1 !! "acc-123" = Some acc'
                  /\ Balance acc' = F64.add (Balance acc) tiny
                  /\ F64.leb (Balance acc) (Balance acc') = true.
Proof.
  intros acc tiny dep.
  split; [reflexivity |]. split; [reflexivity |]. split; [reflexivity |].
  split; [reflexivity |].
  exact (proj1 (balance_direction accounts "localhost:9001" "acc-123" acc tiny
                  eq_refl BankSpec.accounts_acc123 eq_refl eq_refl
                  eq_refl eq_refl eq_refl)).
Defined.

End BankBalance.
